(** * Yerevanyan Shawarma API: the order store of [app.py]

    A shallow embedding of the request handlers of [src/app.py] and the
    properties of the order lifecycle.

    - A Python [str] is a sequence of Unicode code points: [pystr] is
      [list N].  Literals are written as in the source and decoded from
      the UTF-8 bytes of the file by [utf8].
    - A Python [int] is unbounded: [Z].
    - The module-level globals [orders_storage] (a dict) and
      [next_order_id] form the [state]; a handler is a function from the
      state to an outcome and the state it leaves behind.
    - [raise HTTPException(...)] and the request-validation failure of the
      framework are the [Raise] outcomes. *)

From Stdlib Require Import ZArith NArith List Sorted Ascii String DecimalString.
From stdpp Require Import base option list gmap.
Import ListNotations.
Local Open Scope Z_scope.

(** ** Python strings *)

Definition pystr := list N.

#[global] Instance pystr_eq_dec : EqDecision pystr.
Proof. unfold pystr. apply _. Defined.

Module Utf8.

(** Continuation byte payload. *)
Definition cont (b : N) : N := N.land b 0x3F.

(** Decoder for the (well-formed) UTF-8 bytes of a source literal. *)
Fixpoint decode (bs : list N) : list N :=
  match bs with
  | [] => []
  | b :: r =>
      if (b <? 0x80)%N then b :: decode r
      else if (b <? 0xE0)%N then
        match r with
        | c1 :: r1 =>
            N.lor (N.shiftl (N.land b 0x1F) 6) (cont c1) :: decode r1
        | _ => []
        end
      else if (b <? 0xF0)%N then
        match r with
        | c1 :: c2 :: r2 =>
            N.lor (N.shiftl (N.land b 0x0F) 12)
              (N.lor (N.shiftl (cont c1) 6) (cont c2)) :: decode r2
        | _ => []
        end
      else
        match r with
        | c1 :: c2 :: c3 :: r3 =>
            N.lor (N.shiftl (N.land b 0x07) 18)
              (N.lor (N.shiftl (cont c1) 12)
                 (N.lor (N.shiftl (cont c2) 6) (cont c3))) :: decode r3
        | _ => []
        end
  end.

Definition bytes (s : string) : list N :=
  List.map N_of_ascii (list_ascii_of_string s).

End Utf8.

(** The [str] denoted by a literal of the source file. *)
Definition utf8 (s : string) : pystr := Utf8.decode (Utf8.bytes s).

(** [str(n)] / [f"{n}"] for an int. *)
Definition str_int (n : Z) : pystr :=
  utf8 (NilZero.string_of_int (Z.to_int n)).

(** [Py_UNICODE_ISSPACE]: the code points [str.strip()] removes when it is
    called without an argument. *)
Definition isspace (c : N) : bool :=
  ((0x09 <=? c) && (c <=? 0x0D) || (0x1C <=? c) && (c <=? 0x20)
   || (c =? 0x85) || (c =? 0xA0) || (c =? 0x1680)
   || (0x2000 <=? c) && (c <=? 0x200A)
   || (c =? 0x2028) || (c =? 0x2029) || (c =? 0x202F) || (c =? 0x205F)
   || (c =? 0x3000))%N.

Fixpoint lstrip (s : pystr) : pystr :=
  match s with
  | c :: r => if isspace c then lstrip r else s
  | [] => []
  end.

Definition rstrip (s : pystr) : pystr := rev (lstrip (rev s)).

(** [s.strip()] *)
Definition strip (s : pystr) : pystr := rstrip (lstrip s).

(** [len(s)] *)
Definition len (s : pystr) : Z := Z.of_nat (length s).

(** ** The menu *)

Inductive ShawarmaType := HAVOV | TAVAROV | BANJAR | HATUK.

#[global] Instance ShawarmaType_eq_dec : EqDecision ShawarmaType.
Proof. solve_decision. Defined.

Module ShawarmaType_.

(** [member.value] *)
Definition value (t : ShawarmaType) : pystr :=
  match t with
  | HAVOV => utf8 "հավով"
  | TAVAROV => utf8 "տավարով"
  | BANJAR => utf8 "բանջարեղենով"
  | HATUK => utf8 "հատուկ"
  end.

(** [member.name] *)
Definition name (t : ShawarmaType) : pystr :=
  match t with
  | HAVOV => utf8 "HAVOV"
  | TAVAROV => utf8 "TAVAROV"
  | BANJAR => utf8 "BANJAR"
  | HATUK => utf8 "HATUK"
  end.

(** Members in definition order. *)
Definition members : list ShawarmaType := [HAVOV; TAVAROV; BANJAR; HATUK].

(** [ShawarmaType(v)]: lookup of a member by value, as the request
    validation does for a field of type [ShawarmaType]. *)
Definition of_value (v : pystr) : option ShawarmaType :=
  List.find (fun t => bool_decide (value t = v)) members.

(** [repr(member)], e.g. [<ShawarmaType.HAVOV: 'հավով'>]; the values
    hold no quote and no character that [repr] escapes. *)
Definition repr (t : ShawarmaType) : pystr :=
  utf8 "<ShawarmaType." ++ name t ++ utf8 ": '" ++ value t ++ utf8 "'>".

End ShawarmaType_.

Module ShawarmaItem.
Record t := {
  name : ShawarmaType;
  price : Z;
  available : bool;   (* = True *)
  prep_time : Z       (* minutes *)
}.
End ShawarmaItem.

(** The Python values that occur as dict keys and as order items: a [str]
    or a member of [ShawarmaType].  [ShawarmaType] is a plain [Enum] (it
    does not derive from [str]): a member is equal to itself only, and
    never to a [str], whatever its name or value.  Equality of [pyval] is
    Python's [==] on these values. *)
Inductive pyval :=
  | VStr (s : pystr)
  | VEnum (t : ShawarmaType).

#[global] Instance pyval_eq_dec : EqDecision pyval.
Proof. solve_decision. Defined.

(** A small insertion-ordered dict. *)
Definition pydict (V : Type) := list (pyval * V).

(** [k in d] *)
Definition dict_contains {V} (k : pyval) (d : pydict V) : bool :=
  existsb (fun kv => bool_decide (fst kv = k)) d.

(** [d[k]]; [None] stands for [KeyError]. *)
Definition dict_get {V} (k : pyval) (d : pydict V) : option V :=
  snd <$> List.find (fun kv => bool_decide (fst kv = k)) d.

(** [list(d.keys())] *)
Definition dict_keys {V} (d : pydict V) : list pyval := List.map fst d.

Definition menu_items : pydict ShawarmaItem.t :=
  [ (VEnum HAVOV,
      {| ShawarmaItem.name := HAVOV; ShawarmaItem.price := 1500;
         ShawarmaItem.available := true; ShawarmaItem.prep_time := 3 |});
    (VEnum TAVAROV,
      {| ShawarmaItem.name := TAVAROV; ShawarmaItem.price := 1800;
         ShawarmaItem.available := true; ShawarmaItem.prep_time := 4 |});
    (VEnum BANJAR,
      {| ShawarmaItem.name := BANJAR; ShawarmaItem.price := 1200;
         ShawarmaItem.available := true; ShawarmaItem.prep_time := 2 |});
    (VEnum HATUK,
      {| ShawarmaItem.name := HATUK; ShawarmaItem.price := 2200;
         ShawarmaItem.available := true; ShawarmaItem.prep_time := 6 |}) ].

(** [repr] of a [str] without quotes or escapes. *)
Definition repr_str (s : pystr) : pystr := utf8 "'" ++ s ++ utf8 "'".

Definition repr_val (k : pyval) : pystr :=
  match k with
  | VStr s => repr_str s
  | VEnum t => ShawarmaType_.repr t
  end.

Fixpoint join (sep : pystr) (l : list pystr) : pystr :=
  match l with
  | [] => []
  | [x] => x
  | x :: r => x ++ sep ++ join sep r
  end.

(** [repr] of a list: [[a, b, c]]. *)
Definition repr_list (l : list pystr) : pystr :=
  utf8 "[" ++ join (utf8 ", ") l ++ utf8 "]".

(** ** Outcomes *)

(** One entry of the error list of a rejected request body. *)
Inductive validation_error :=
  | value_error (field : pystr) (msg : pystr)
      (* a [ValueError] raised by a field validator *)
  | enum_error (field : pystr) (index : nat) (input : pyval).
      (* an element that is not a value of the enum *)

Inductive exn :=
  | HTTPException (status_code : Z) (detail : pystr)
  | RequestValidationError (errors : list validation_error)
  | ValueError (msg : pystr)
  | KeyError (key : pyval).

Inductive result (A : Type) :=
  | Ok (a : A)
  | Raise (e : exn).
Arguments Ok {A} a.
Arguments Raise {A} e.

(** The HTTP status the framework answers with: the code of an
    [HTTPException], 422 for a rejected request body, 200 for a value
    returned by the handler and 500 for any other exception. *)
Definition http_status {A} (r : result A) : Z :=
  match r with
  | Ok _ => 200
  | Raise (HTTPException c _) => c
  | Raise (RequestValidationError _) => 422
  | Raise _ => 500
  end.

(** ** Request and response models *)

Definition datetime := Z.

Module OrderCreate.

(** A decoded JSON body of [POST /orders] with a string in
    [customer_name], a list of strings in [items] and, in
    [special_requests], nothing ([None]), [null] ([Some None]) or a
    string. *)
Record body := {
  body_customer_name : pystr;
  body_items : list pystr;
  body_special_requests : option (option pystr)
}.

Record t := {
  customer_name : pystr;
  items : list ShawarmaType;
  special_requests : option pystr   (* = "" *)
}.

(** The [field_validator] of [customer_name]. *)
Definition validate_name (v : pystr) : result pystr :=
  if len (strip v) <? 2 then
    Raise (ValueError (utf8 "Անունը պետք է լինի նվազագույնը 2 տառ"))
  else Ok (strip v).

(** Validation of [items : List[ShawarmaType]]: every element has to be
    the value of a member; the errors of the others, by index. *)
Fixpoint validate_items (i : nat) (l : list pystr)
  : list ShawarmaType * list validation_error :=
  match l with
  | [] => ([], [])
  | v :: r =>
      let '(ts, errs) := validate_items (S i) r in
      match ShawarmaType_.of_value v with
      | Some t => (t :: ts, errs)
      | None => (ts, enum_error (utf8 "items") i (VStr v) :: errs)
      end
  end.

(** Construction of the model from a request body: all fields are
    validated and the errors collected. *)
Definition validate (b : body) : result t :=
  let name_errs :=
    match validate_name (body_customer_name b) with
    | Raise (ValueError msg) => [value_error (utf8 "customer_name") msg]
    | _ => []
    end in
  let '(ts, item_errs) := validate_items 0 (body_items b) in
  match validate_name (body_customer_name b), name_errs ++ item_errs with
  | Ok name, [] =>
      Ok {| customer_name := name; items := ts;
            special_requests :=
              default (Some (utf8 EmptyString)) (body_special_requests b) |}
  | _, errs => Raise (RequestValidationError errs)
  end.

End OrderCreate.

Module Order.
Record t := {
  id : Z;
  customer_name : pystr;
  items : list pyval;   (* List[ShawarmaType]; assignment is unchecked *)
  status : pystr;
  created_at : datetime
}.

(** [order.items = v] *)
Definition set_items (v : list pyval) (o : t) : t :=
  {| id := id o; customer_name := customer_name o; items := v;
     status := status o; created_at := created_at o |}.
End Order.

Module OrderResponse.
Record t := {
  status : pystr;
  order : Order.t;
  message : pystr
}.
End OrderResponse.

(** The dicts the handlers return. *)
Module MenuItemDict.
Record t := { status : pystr; menu_item : ShawarmaItem.t }.
End MenuItemDict.

Module OrderDict.
Record t := { status : pystr; order : Order.t }.
End OrderDict.

Module MessageDict.
Record t := { status : pystr; message : pystr }.
End MessageDict.

(** ** The store *)

Record state := {
  orders_storage : gmap Z Order.t;
  next_order_id : Z
}.

Definition initial : state := {| orders_storage := ∅; next_order_id := 1 |}.

(** Status labels compared by the handlers. *)
Definition IN_PROGRESS : pystr := utf8 "Ընթացքում ա".
Definition READY : pystr := utf8 "պատրաստ".

(** ** Handlers *)

(** [GET /menu/{item_name}]; the path parameter is a [str]. *)
Definition get_menu_item (item_name : pystr) : result MenuItemDict.t :=
  if negb (dict_contains (VStr item_name) menu_items) then
    Raise (HTTPException 404
             (item_name ++ utf8 " not found. Options are: "
              ++ repr_list (List.map repr_val (dict_keys menu_items))))
  else
    match dict_get (VStr item_name) menu_items with
    | None => Raise (KeyError (VStr item_name))
    | Some item =>
        Ok {| MenuItemDict.status := utf8 "success";
              MenuItemDict.menu_item :=
                {| ShawarmaItem.name := ShawarmaItem.name item;
                   ShawarmaItem.price := ShawarmaItem.price item;
                   ShawarmaItem.available := ShawarmaItem.available item;
                   ShawarmaItem.prep_time := ShawarmaItem.prep_time item |} |}
    end.

(** [POST /orders] once the body is validated.  [now] is the value of
    [datetime.now()]; the [print] and the [time.sleep(1)] touch neither
    the store nor the answer. *)
Definition create_order (order_data : OrderCreate.t) (now : datetime)
    (st : state) : result OrderResponse.t * state :=
  let new_order :=
    {| Order.id := next_order_id st;
       Order.customer_name := OrderCreate.customer_name order_data;
       Order.items := List.map VEnum (OrderCreate.items order_data);
       Order.status := utf8 "Ընթացքում ա";
       Order.created_at := now |} in
  let st1 :=
    {| orders_storage := <[next_order_id st := new_order]> (orders_storage st);
       next_order_id := next_order_id st |} in
  let st2 :=
    {| orders_storage := orders_storage st1;
       next_order_id := next_order_id st1 + 1 |} in
  (Ok {| OrderResponse.status := utf8 "Պատրաստ ա";
         OrderResponse.order := new_order;
         OrderResponse.message :=
           utf8 "Պատվեր #" ++ str_int (next_order_id st2 - 1)
           ++ utf8 " ստեղծվեց:" |},
   st2).

(** [POST /orders]: the framework builds [OrderCreate] from the body and
    answers 422 without calling the handler when that fails. *)
Definition post_orders (b : OrderCreate.body) (now : datetime) (st : state)
    : result OrderResponse.t * state :=
  match OrderCreate.validate b with
  | Ok order_data => create_order order_data now st
  | Raise e => (Raise e, st)
  end.

Definition not_found (order_id : Z) : exn :=
  HTTPException 404 (utf8 "Պատվեր #" ++ str_int order_id ++ utf8 " չի գտնվել").

(** [GET /orders/{order_id}] *)
Definition get_order (order_id : Z) (st : state) : result OrderDict.t :=
  match orders_storage st !! order_id with
  | None => Raise (not_found order_id)
  | Some o => Ok {| OrderDict.status := utf8 "success"; OrderDict.order := o |}
  end.

(** [PUT /orders/{order_id}]; the body is a list of [str].  The order
    object is mutated where it lives, in the store. *)
Definition update_order (order_id : Z) (new_items : list pystr) (st : state)
    : result OrderDict.t * state :=
  match orders_storage st !! order_id with
  | None => (Raise (not_found order_id), st)
  | Some order =>
      if bool_decide (Order.status order ≠ utf8 "Ընթացքում ա") then
        (Raise (HTTPException 422 (utf8 "Պատրաստ պատվերը չի կարելի փոխել")), st)
      else
        let order' := Order.set_items (List.map VStr new_items) order in
        (Ok {| OrderDict.status := utf8 "updated"; OrderDict.order := order' |},
         {| orders_storage := <[order_id := order']> (orders_storage st);
            next_order_id := next_order_id st |})
  end.

(** [DELETE /orders/{order_id}] *)
Definition cancel_order (order_id : Z) (st : state)
    : result MessageDict.t * state :=
  match orders_storage st !! order_id with
  | None => (Raise (not_found order_id), st)
  | Some order =>
      if bool_decide (Order.status order = utf8 "պատրաստ") then
        (Raise (HTTPException 422 (utf8 "Պատրաստ պատվերը չի կարելի չեղարկել")),
         st)
      else
        (Ok {| MessageDict.status := utf8 "cancelled";
               MessageDict.message :=
                 utf8 "Պատվեր #" ++ str_int order_id ++ utf8 " չեղարկվեց" |},
         {| orders_storage := delete order_id (orders_storage st);
            next_order_id := next_order_id st |})
  end.

(** [GET /ping] *)
Definition ping : pystr * pystr * pystr :=
  (utf8 "Բարի գալուստ Երևանյան Շաուրմա API 🥙", utf8 "/docs", utf8 "1.0.0").

(** [GET /menu]: the dict comprehension over [menu_items.items()]. *)
Definition get_menu : pystr * pydict (Z * bool * Z) :=
  (utf8 "success",
   List.map (fun kv =>
               (fst kv, (ShawarmaItem.price (snd kv),
                         ShawarmaItem.available (snd kv),
                         ShawarmaItem.prep_time (snd kv)))) menu_items).

(** ** The application as a transition system *)

Inductive request :=
  | GET_ping
  | GET_menu
  | GET_menu_item (item_name : pystr)
  | POST_orders (b : OrderCreate.body) (now : datetime)
  | GET_order (order_id : Z)
  | PUT_order (order_id : Z) (new_items : list pystr)
  | DELETE_order (order_id : Z).

Inductive response :=
  | PingBody (d : pystr * pystr * pystr)
  | MenuBody (d : pystr * pydict (Z * bool * Z))
  | MenuItemBody (d : MenuItemDict.t)
  | CreatedBody (d : OrderResponse.t)
  | OrderBody (d : OrderDict.t)
  | MessageBody (d : MessageDict.t).

Definition result_map {A B} (f : A → B) (r : result A) : result B :=
  match r with
  | Ok a => Ok (f a)
  | Raise e => Raise e
  end.

Definition handle (r : request) (st : state) : result response * state :=
  match r with
  | GET_ping => (Ok (PingBody ping), st)
  | GET_menu => (Ok (MenuBody get_menu), st)
  | GET_menu_item n => (result_map MenuItemBody (get_menu_item n), st)
  | POST_orders b now =>
      let '(o, st') := post_orders b now st in (result_map CreatedBody o, st')
  | GET_order i => (result_map OrderBody (get_order i st), st)
  | PUT_order i l =>
      let '(o, st') := update_order i l st in (result_map OrderBody o, st')
  | DELETE_order i =>
      let '(o, st') := cancel_order i st in (result_map MessageBody o, st')
  end.

(** A sequence of requests served one after the other. *)
Fixpoint run (rs : list request) (st : state)
    : list (result response) * state :=
  match rs with
  | [] => ([], st)
  | r :: rs' =>
      let '(o, st1) := handle r st in
      let '(os, st2) := run rs' st1 in
      (o :: os, st2)
  end.

(** The states the application can be in. *)
Inductive reachable : state → Prop :=
  | reachable_initial : reachable initial
  | reachable_handle r st : reachable st → reachable (snd (handle r st)).

(** The id of the order an answer reports as created. *)
Definition created_id (o : result response) : option Z :=
  match o with
  | Ok (CreatedBody d) => Some (Order.id (OrderResponse.order d))
  | _ => None
  end.

Definition created_ids (os : list (result response)) : list Z :=
  omap created_id os.

(** A white-space code point, as a proposition. *)
Definition blank (c : N) : Prop := isspace c = true.

(** The answers that report a cancellation. *)
Definition is_cancelled (o : result response) : bool :=
  match o with
  | Ok (MessageBody _) => true
  | _ => false
  end.

Definition cancelled_count (os : list (result response)) : nat :=
  length (List.filter is_cancelled os).

(** ** Sample data *)

(** Example stores: order 7 in the three states the checks tell apart. *)
Definition sample_order (status : pystr) : Order.t :=
  {| Order.id := 7; Order.customer_name := utf8 "An";
     Order.items := [VEnum HAVOV]; Order.status := status;
     Order.created_at := 0 |}.

Definition sample_store (status : pystr) : state :=
  {| orders_storage := {[ 7 := sample_order status ]}; next_order_id := 8 |}.

(** The body of the scenario: name [" An "], one [հավով]. *)
Definition an_body : OrderCreate.body :=
  {| OrderCreate.body_customer_name := utf8 " An ";
     OrderCreate.body_items := [utf8 "հավով"];
     OrderCreate.body_special_requests := None |}.

(** A name of white space only: a space, a tab and a no-break space. *)
Definition blank_body : OrderCreate.body :=
  {| OrderCreate.body_customer_name := [0x20; 0x09; 0xA0]%N;
     OrderCreate.body_items := [utf8 "հավով"];
     OrderCreate.body_special_requests := None |}.

(** A good name with an item the menu does not have. *)
Definition pizza_body : OrderCreate.body :=
  {| OrderCreate.body_customer_name := utf8 " An ";
     OrderCreate.body_items := [utf8 "pizza"];
     OrderCreate.body_special_requests := None |}.

(** Create, create, cancel the first, create again. *)
Definition sample_trace : list request :=
  [ POST_orders an_body 0; POST_orders an_body 1; DELETE_order 1;
    POST_orders blank_body 2; POST_orders an_body 3 ].

Arguments utf8 : simpl never.
Arguments str_int : simpl never.
Arguments strip : simpl never.

(** * Properties *)

(** ** The menu lookup *)

Section Menu.

(** No [str] is a key of a dict whose keys are all enum members. *)
Lemma dict_contains_str {V} (s : pystr) (d : pydict V) :
  Forall (fun kv => ∃ t, fst kv = VEnum t) d →
  dict_contains (VStr s) d = false.
Proof.
  induction 1 as [|[k v] d [t Ht] _ IH]; [reflexivity|].
  simpl in *. subst k. rewrite IH.
  rewrite bool_decide_eq_false_2 by discriminate. reflexivity.
Qed.

Lemma menu_items_keys :
  Forall (fun kv : pyval * ShawarmaItem.t => ∃ t, fst kv = VEnum t) menu_items.
Proof. repeat constructor; eexists; reflexivity. Qed.

(** Whatever the path parameter, the handler answers 404. *)
Lemma get_menu_item_not_found (item_name : pystr) :
  get_menu_item item_name =
    Raise (HTTPException 404
             (item_name ++ utf8 " not found. Options are: "
              ++ repr_list (List.map repr_val (dict_keys menu_items)))).
Proof.
  unfold get_menu_item.
  rewrite (dict_contains_str item_name menu_items menu_items_keys).
  reflexivity.
Qed.

End Menu.

(** C1 (the code departs from it): asked for the menu identifier
    [հավով], and likewise for the value or the member name of any of the
    four menu entries, [get_menu_item] answers 404, not 200 with the
    entry: the keys of [menu_items] are enum members and the path
    parameter is a [str]. *)
Theorem get_menu_item_known_identifier_404 :
  http_status (get_menu_item (utf8 "հավով")) = 404
  ∧ ∀ t : ShawarmaType,
      http_status (get_menu_item (ShawarmaType_.value t)) = 404
      ∧ http_status (get_menu_item (ShawarmaType_.name t)) = 404.
Proof.
  split; [|intros t; split]; rewrite get_menu_item_not_found; reflexivity.
Qed.

(** ** Single operations on the store *)

Section Operations.

Implicit Types (st : state) (order_id : Z) (order : Order.t).

Lemma READY_not_IN_PROGRESS : READY ≠ IN_PROGRESS.
Proof. vm_compute. discriminate. Qed.

Lemma update_order_absent st order_id new_items :
  orders_storage st !! order_id = None →
  update_order order_id new_items st = (Raise (not_found order_id), st).
Proof. intros H. unfold update_order. rewrite H. reflexivity. Qed.

Lemma update_order_wrong_status st order_id order new_items :
  orders_storage st !! order_id = Some order →
  Order.status order ≠ IN_PROGRESS →
  update_order order_id new_items st =
    (Raise (HTTPException 422 (utf8 "Պատրաստ պատվերը չի կարելի փոխել")), st).
Proof.
  intros H Hs. unfold update_order. rewrite H.
  rewrite bool_decide_eq_true_2 by exact Hs. reflexivity.
Qed.

Lemma update_order_in_progress st order_id order new_items :
  orders_storage st !! order_id = Some order →
  Order.status order = IN_PROGRESS →
  update_order order_id new_items st =
    (Ok {| OrderDict.status := utf8 "updated";
           OrderDict.order := Order.set_items (List.map VStr new_items) order |},
     {| orders_storage :=
          <[order_id := Order.set_items (List.map VStr new_items) order]>
            (orders_storage st);
        next_order_id := next_order_id st |}).
Proof.
  intros H Hs. unfold update_order. rewrite H.
  rewrite bool_decide_eq_false_2; [reflexivity|].
  intros Hne. apply Hne. exact Hs.
Qed.

Lemma cancel_order_ok_inv st order_id d st' :
  cancel_order order_id st = (Ok d, st') →
  ∃ order, orders_storage st !! order_id = Some order
           ∧ Order.status order ≠ READY
           ∧ st' = {| orders_storage := delete order_id (orders_storage st);
                      next_order_id := next_order_id st |}.
Proof.
  unfold cancel_order. destruct (orders_storage st !! order_id) as [o|];
    [|discriminate].
  case_bool_decide as Hs; [discriminate|].
  intros [= _ <-]. eauto.
Qed.

End Operations.

(** C2: for an order that is in the store, [cancel_order] answers 422 and
    leaves the store alone when the status is the label [պատրաստ];
    otherwise it deletes the record (the id is no longer a key, every
    other record stays) and returns the confirmation. *)
Theorem cancel_order_stored (st : state) (order_id : Z) (order : Order.t) :
  orders_storage st !! order_id = Some order →
  (Order.status order = READY →
     cancel_order order_id st =
       (Raise (HTTPException 422 (utf8 "Պատրաստ պատվերը չի կարելի չեղարկել")),
        st)
     ∧ http_status (fst (cancel_order order_id st)) = 422)
  ∧ (Order.status order ≠ READY →
       ∃ st',
         cancel_order order_id st =
           (Ok {| MessageDict.status := utf8 "cancelled";
                  MessageDict.message :=
                    utf8 "Պատվեր #" ++ str_int order_id ++ utf8 " չեղարկվեց" |},
            st')
         ∧ orders_storage st' = delete order_id (orders_storage st)
         ∧ orders_storage st' !! order_id = None
         ∧ ∀ j, j ≠ order_id →
                orders_storage st' !! j = orders_storage st !! j).
Proof.
  intros H. unfold cancel_order. rewrite H. split; intros Hs.
  - rewrite bool_decide_eq_true_2 by exact Hs. split; reflexivity.
  - rewrite bool_decide_eq_false_2 by exact Hs.
    eexists. split; [reflexivity|]. simpl. split; [reflexivity|]. split.
    + apply lookup_delete_eq.
    + intros j Hj. apply lookup_delete_ne. congruence.
Qed.

Lemma cancel_order_stored_witness :
  cancel_order 7 (sample_store READY) =
    (Raise (HTTPException 422 (utf8 "Պատրաստ պատվերը չի կարելի չեղարկել")),
     sample_store READY)
  ∧ ∃ st', cancel_order 7 (sample_store IN_PROGRESS) =
             (Ok {| MessageDict.status := utf8 "cancelled";
                    MessageDict.message :=
                      utf8 "Պատվեր #" ++ str_int 7 ++ utf8 " չեղարկվեց" |},
              st')
           ∧ orders_storage st' !! 7 = None.
Proof.
  split.
  - apply (cancel_order_stored (sample_store READY) 7 (sample_order READY)).
    + reflexivity.
    + reflexivity.
  - destruct (cancel_order_stored (sample_store IN_PROGRESS) 7
                (sample_order IN_PROGRESS)) as [_ H].
    + reflexivity.
    + destruct H as (st' & E & _ & Hn & _).
      * vm_compute. discriminate.
      * exists st'. split; [exact E | exact Hn].
Defined.

(** C3: [update_order] answers 404 when the id is not in the store, 422
    when the stored order's status is not the label [Ընթացքում ա], and
    otherwise puts the new items in the stored order, every other field
    kept, and returns that order. *)
Theorem update_order_cases (st : state) (order_id : Z) (new_items : list pystr) :
  (orders_storage st !! order_id = None →
     update_order order_id new_items st = (Raise (not_found order_id), st)
     ∧ http_status (fst (update_order order_id new_items st)) = 404)
  ∧ (∀ order,
       orders_storage st !! order_id = Some order →
       Order.status order ≠ IN_PROGRESS →
       update_order order_id new_items st =
         (Raise (HTTPException 422 (utf8 "Պատրաստ պատվերը չի կարելի փոխել")),
          st))
  ∧ (∀ order,
       orders_storage st !! order_id = Some order →
       Order.status order = IN_PROGRESS →
       ∃ order' st',
         update_order order_id new_items st =
           (Ok {| OrderDict.status := utf8 "updated";
                  OrderDict.order := order' |}, st')
         ∧ orders_storage st' !! order_id = Some order'
         ∧ Order.items order' = List.map VStr new_items
         ∧ Order.id order' = Order.id order
         ∧ Order.customer_name order' = Order.customer_name order
         ∧ Order.status order' = Order.status order
         ∧ Order.created_at order' = Order.created_at order
         ∧ next_order_id st' = next_order_id st
         ∧ ∀ j, j ≠ order_id →
                orders_storage st' !! j = orders_storage st !! j).
Proof.
  split; [|split].
  - intros H. rewrite (update_order_absent _ _ _ H). split; reflexivity.
  - intros order H Hs. exact (update_order_wrong_status _ _ _ _ H Hs).
  - intros order H Hs.
    rewrite (update_order_in_progress _ _ _ _ H Hs).
    eexists _, _. split; [reflexivity|]. simpl.
    split; [apply lookup_insert_eq|].
    repeat (split; [reflexivity|]).
    intros j Hj. apply lookup_insert_ne. congruence.
Qed.

Lemma update_order_cases_witness :
  update_order 3 [utf8 "pizza"] (sample_store IN_PROGRESS) =
    (Raise (not_found 3), sample_store IN_PROGRESS)
  ∧ update_order 7 [utf8 "pizza"] (sample_store (utf8 "Պատրաստ ա")) =
      (Raise (HTTPException 422 (utf8 "Պատրաստ պատվերը չի կարելի փոխել")),
       sample_store (utf8 "Պատրաստ ա"))
  ∧ ∃ order' st',
      update_order 7 [utf8 "pizza"] (sample_store IN_PROGRESS) =
        (Ok {| OrderDict.status := utf8 "updated"; OrderDict.order := order' |},
         st')
      ∧ Order.items order' = [VStr (utf8 "pizza")].
Proof.
  split; [|split].
  - apply (update_order_cases (sample_store IN_PROGRESS) 3 [utf8 "pizza"]).
    reflexivity.
  - apply (proj1 (proj2 (update_order_cases (sample_store (utf8 "Պատրաստ ա")) 7
                           [utf8 "pizza"]))
             (sample_order (utf8 "Պատրաստ ա"))).
    + reflexivity.
    + vm_compute. discriminate.
  - destruct (proj2 (proj2 (update_order_cases (sample_store IN_PROGRESS) 7
                              [utf8 "pizza"]))
                (sample_order IN_PROGRESS)) as (o' & st' & E & _ & Hi & _).
    + reflexivity.
    + reflexivity.
    + exists o', st'. split; [exact E | exact Hi].
Defined.

(** C9: on a stored order whose status is the label [պատրաստ],
    [update_order] answers 422 and the store, with the order in it, is
    what it was. *)
Theorem update_order_ready_unmodified
    (st : state) (order_id : Z) (order : Order.t) (new_items : list pystr) :
  orders_storage st !! order_id = Some order →
  Order.status order = READY →
  http_status (fst (update_order order_id new_items st)) = 422
  ∧ snd (update_order order_id new_items st) = st
  ∧ orders_storage (snd (update_order order_id new_items st)) !! order_id
    = Some order.
Proof.
  intros H Hs.
  rewrite (update_order_wrong_status st order_id order new_items H).
  - simpl. repeat split. exact H.
  - rewrite Hs. exact READY_not_IN_PROGRESS.
Qed.

Lemma update_order_ready_unmodified_witness :
  http_status (fst (update_order 7 [utf8 "հատուկ"] (sample_store READY))) = 422
  ∧ snd (update_order 7 [utf8 "հատուկ"] (sample_store READY))
    = sample_store READY
  ∧ orders_storage (snd (update_order 7 [utf8 "հատուկ"] (sample_store READY)))
      !! 7 = Some (sample_order READY).
Proof.
  apply (update_order_ready_unmodified (sample_store READY) 7
           (sample_order READY) [utf8 "հատուկ"]); reflexivity.
Defined.

(** C7: after a [cancel_order] that succeeded the record is gone from the
    store (the dict entry is deleted, no status is written), and
    [get_order] on that id answers 404. *)
Theorem cancel_then_get_not_found
    (st st' : state) (order_id : Z) (d : MessageDict.t) :
  cancel_order order_id st = (Ok d, st') →
  orders_storage st' = delete order_id (orders_storage st)
  ∧ orders_storage st' !! order_id = None
  ∧ get_order order_id st' = Raise (not_found order_id)
  ∧ http_status (get_order order_id st') = 404.
Proof.
  intros H. destruct (cancel_order_ok_inv _ _ _ _ H) as (o & _ & _ & ->).
  unfold get_order. simpl. rewrite lookup_delete_eq. repeat split.
Qed.

Lemma cancel_then_get_not_found_witness :
  orders_storage (snd (cancel_order 7 (sample_store IN_PROGRESS)))
  = delete 7 (orders_storage (sample_store IN_PROGRESS))
  ∧ orders_storage (snd (cancel_order 7 (sample_store IN_PROGRESS))) !! 7 = None
  ∧ get_order 7 (snd (cancel_order 7 (sample_store IN_PROGRESS)))
    = Raise (not_found 7)
  ∧ http_status (get_order 7 (snd (cancel_order 7 (sample_store IN_PROGRESS))))
    = 404.
Proof.
  apply (cancel_then_get_not_found (sample_store IN_PROGRESS) _ 7
           {| MessageDict.status := utf8 "cancelled";
              MessageDict.message :=
                utf8 "Պատվեր #" ++ str_int 7 ++ utf8 " չեղարկվեց" |}).
  vm_compute. reflexivity.
Defined.

(** ** Creation *)

Section Creation.

Lemma of_value_value (t : ShawarmaType) :
  ShawarmaType_.of_value (ShawarmaType_.value t) = Some t.
Proof. destruct t; vm_compute; reflexivity. Qed.

Lemma validate_items_members (i : nat) (items : list ShawarmaType) :
  OrderCreate.validate_items i (List.map ShawarmaType_.value items)
  = (items, []).
Proof.
  revert i. induction items as [|t items IH]; intros i; [reflexivity|].
  simpl. rewrite IH, of_value_value. reflexivity.
Qed.

(** The members found and the errors reported, element by element. *)
Lemma validate_items_errors (i : nat) (l : list pystr) :
  (Forall (fun v => is_Some (ShawarmaType_.of_value v)) l →
     snd (OrderCreate.validate_items i l) = []
     ∧ List.map ShawarmaType_.value (fst (OrderCreate.validate_items i l)) = l)
  ∧ (¬ Forall (fun v => is_Some (ShawarmaType_.of_value v)) l →
       snd (OrderCreate.validate_items i l) ≠ []).
Proof.
  revert i. induction l as [|v l IH]; intros i.
  - split; [intros _; split; reflexivity|]. intros H. destruct H. constructor.
  - simpl. destruct (OrderCreate.validate_items (S i) l) as [ts errs] eqn:E.
    specialize (IH (S i)). rewrite E in IH. simpl in IH.
    destruct (ShawarmaType_.of_value v) as [t|] eqn:Ev; simpl.
    + split.
      * intros H. inversion H as [|? ? _ Hl]; subst.
        destruct (proj1 IH Hl) as [-> ->]. split; [reflexivity|].
        f_equal. unfold ShawarmaType_.of_value in Ev.
        apply find_some in Ev as [_ Ev].
        apply bool_decide_eq_true_1 in Ev. exact Ev.
      * intros H. apply (proj2 IH). intros Hl. apply H.
        constructor; [rewrite Ev; eauto | exact Hl].
    + split; [|discriminate].
      intros H. inversion H as [|? ? Hv _]; subst.
      rewrite Ev in Hv. destruct Hv as [? Hv]. discriminate.
Qed.

Lemma validate_name_ok (v : pystr) :
  2 ≤ len (strip v) → OrderCreate.validate_name v = Ok (strip v).
Proof.
  intros H. unfold OrderCreate.validate_name.
  destruct (Z.ltb_spec (len (strip v)) 2); [lia | reflexivity].
Qed.

Lemma validate_name_short (v : pystr) :
  len (strip v) < 2 →
  OrderCreate.validate_name v =
    Raise (ValueError (utf8 "Անունը պետք է լինի նվազագույնը 2 տառ")).
Proof.
  intros H. unfold OrderCreate.validate_name.
  destruct (Z.ltb_spec (len (strip v)) 2); [reflexivity | lia].
Qed.

Lemma validate_short_name (b : OrderCreate.body) :
  len (strip (OrderCreate.body_customer_name b)) < 2 →
  ∃ errs, OrderCreate.validate b = Raise (RequestValidationError errs).
Proof.
  intros H. unfold OrderCreate.validate.
  rewrite (validate_name_short _ H).
  destruct (OrderCreate.validate_items 0 (OrderCreate.body_items b)).
  eexists. reflexivity.
Qed.

(** What [post_orders] does with a body that passed validation. *)
Lemma post_orders_ok_inv b now st d st' :
  post_orders b now st = (Ok d, st') →
  Order.id (OrderResponse.order d) = next_order_id st
  ∧ Order.status (OrderResponse.order d) = IN_PROGRESS
  ∧ orders_storage st' =
      <[next_order_id st := OrderResponse.order d]> (orders_storage st)
  ∧ next_order_id st' = next_order_id st + 1.
Proof.
  unfold post_orders. destruct (OrderCreate.validate b); [|discriminate].
  unfold create_order. intros [= <- <-]. simpl. repeat split.
Qed.

Lemma post_orders_raise_inv b now st e st' :
  post_orders b now st = (Raise e, st') → st' = st.
Proof.
  unfold post_orders. destruct (OrderCreate.validate b).
  - discriminate.
  - intros [= _ <-]. reflexivity.
Qed.

End Creation.

(** C4: with a [customer_name] of stripped length at least 2 (and items
    that are menu identifiers) [POST /orders] takes [next_order_id] as the
    id, stores an order with the status [Ընթացքում ա] and the stripped
    name under it, advances the counter and returns that order; with a
    [customer_name] of stripped length below 2 the request is rejected
    with 422 and the store is untouched. *)
Theorem create_order_name_rule :
  (∀ (name : pystr) (items : list ShawarmaType)
     (special : option (option pystr)) (now : datetime) (st : state),
     2 ≤ len (strip name) →
     ∃ new_order st',
       post_orders
         {| OrderCreate.body_customer_name := name;
            OrderCreate.body_items := List.map ShawarmaType_.value items;
            OrderCreate.body_special_requests := special |} now st
       = (Ok {| OrderResponse.status := utf8 "Պատրաստ ա";
                OrderResponse.order := new_order;
                OrderResponse.message :=
                  utf8 "Պատվեր #" ++ str_int (next_order_id st)
                  ++ utf8 " ստեղծվեց:" |}, st')
       ∧ new_order =
           {| Order.id := next_order_id st;
              Order.customer_name := strip name;
              Order.items := List.map VEnum items;
              Order.status := IN_PROGRESS;
              Order.created_at := now |}
       ∧ orders_storage st' = <[next_order_id st := new_order]> (orders_storage st)
       ∧ next_order_id st' = next_order_id st + 1)
  ∧ (∀ (b : OrderCreate.body) (now : datetime) (st : state),
       len (strip (OrderCreate.body_customer_name b)) < 2 →
       (∃ errs, post_orders b now st = (Raise (RequestValidationError errs), st))
       ∧ http_status (fst (post_orders b now st)) = 422).
Proof.
  split.
  - intros name items special now st H.
    unfold post_orders, OrderCreate.validate. simpl.
    rewrite (validate_name_ok _ H), validate_items_members. simpl.
    unfold create_order. simpl. rewrite Z.add_simpl_r.
    eexists _, _. split; [reflexivity|]. repeat split.
  - intros b now st H. destruct (validate_short_name b H) as [errs E].
    unfold post_orders. rewrite E. simpl. split; [eauto | reflexivity].
Qed.

Lemma create_order_name_rule_witness :
  (∃ new_order st',
     post_orders an_body 0 initial
     = (Ok {| OrderResponse.status := utf8 "Պատրաստ ա";
              OrderResponse.order := new_order;
              OrderResponse.message :=
                utf8 "Պատվեր #" ++ str_int 1 ++ utf8 " ստեղծվեց:" |}, st')
     ∧ new_order =
         {| Order.id := 1; Order.customer_name := utf8 "An";
            Order.items := [VEnum HAVOV]; Order.status := IN_PROGRESS;
            Order.created_at := 0 |}
     ∧ orders_storage st' = <[1 := new_order]> ∅
     ∧ next_order_id st' = 2)
  ∧ http_status
      (fst (post_orders
              blank_body 0 initial))
    = 422.
Proof.
  split.
  - apply (proj1 create_order_name_rule (utf8 " An ") [HAVOV] None 0 initial).
    vm_compute. discriminate.
  - apply (proj2 create_order_name_rule
             blank_body 0 initial).
    vm_compute. reflexivity.
Defined.

(** C8: [get_order] on the id of the order a successful [POST /orders]
    returned gives back that very order. *)
Theorem create_then_get
    (b : OrderCreate.body) (now : datetime) (st st' : state)
    (d : OrderResponse.t) :
  post_orders b now st = (Ok d, st') →
  get_order (Order.id (OrderResponse.order d)) st' =
    Ok {| OrderDict.status := utf8 "success";
          OrderDict.order := OrderResponse.order d |}.
Proof.
  intros H. destruct (post_orders_ok_inv _ _ _ _ _ H) as (-> & _ & Hs & _).
  unfold get_order. rewrite Hs, lookup_insert_eq. reflexivity.
Qed.

Lemma create_then_get_witness :
  get_order 1 (snd (post_orders an_body 0 initial)) =
    Ok {| OrderDict.status := utf8 "success";
          OrderDict.order :=
            {| Order.id := 1; Order.customer_name := utf8 "An";
               Order.items := [VEnum HAVOV]; Order.status := IN_PROGRESS;
               Order.created_at := 0 |} |}.
Proof.
  apply (create_then_get an_body 0 initial (snd (post_orders an_body 0 initial))
           {| OrderResponse.status := utf8 "Պատրաստ ա";
              OrderResponse.order :=
                {| Order.id := 1; Order.customer_name := utf8 "An";
                   Order.items := [VEnum HAVOV]; Order.status := IN_PROGRESS;
                   Order.created_at := 0 |};
              OrderResponse.message :=
                utf8 "Պատվեր #" ++ str_int 1 ++ utf8 " ստեղծվեց:" |}).
  vm_compute. reflexivity.
Defined.

(** ** Items and the menu *)

Section Items.

Lemma validate_unknown_item (b : OrderCreate.body) :
  Exists (fun v => ShawarmaType_.of_value v = None) (OrderCreate.body_items b) →
  ∃ errs, OrderCreate.validate b = Raise (RequestValidationError errs).
Proof.
  intros H. unfold OrderCreate.validate.
  pose proof (proj2 (validate_items_errors 0 (OrderCreate.body_items b))) as He.
  destruct (OrderCreate.validate_items 0 (OrderCreate.body_items b))
    as [ts errs]. simpl in He.
  assert (errs ≠ []) as Hne.
  { apply He. intros Hall. apply Exists_exists in H as (v & Hin & Hv).
    rewrite Forall_forall in Hall. destruct (Hall v Hin) as [t Ht].
    congruence. }
  destruct (OrderCreate.validate_name (OrderCreate.body_customer_name b)) as [n|e].
  - simpl. destruct errs; [congruence|]. eexists. reflexivity.
  - eexists. reflexivity.
Qed.

Lemma validate_known_items (b : OrderCreate.body) :
  2 ≤ len (strip (OrderCreate.body_customer_name b)) →
  Forall (fun v => is_Some (ShawarmaType_.of_value v)) (OrderCreate.body_items b) →
  ∃ ts, List.map ShawarmaType_.value ts = OrderCreate.body_items b
        ∧ OrderCreate.validate b =
            Ok {| OrderCreate.customer_name :=
                    strip (OrderCreate.body_customer_name b);
                  OrderCreate.items := ts;
                  OrderCreate.special_requests :=
                    default (Some (utf8 EmptyString))
                      (OrderCreate.body_special_requests b) |}.
Proof.
  intros Hn Hall. unfold OrderCreate.validate.
  rewrite (validate_name_ok _ Hn).
  pose proof (proj1 (validate_items_errors 0 (OrderCreate.body_items b)) Hall)
    as [He Hm].
  destruct (OrderCreate.validate_items 0 (OrderCreate.body_items b))
    as [ts errs]. simpl in *. subst errs.
  exists ts. split; [exact Hm | reflexivity].
Qed.

End Items.

(** C5, as the code has it: [update_order] stores whatever list of strings
    it is given, menu identifiers or not; [POST /orders] checks the
    items: with a valid name the order is created exactly when every item
    is the value of one of the four members of [ShawarmaType] (the keys of
    the menu), and a body with any other item is rejected with 422. *)
Theorem items_checked_on_create_not_on_update :
  (∀ (st : state) (order_id : Z) (order : Order.t) (new_items : list pystr),
     orders_storage st !! order_id = Some order →
     Order.status order = IN_PROGRESS →
     http_status (fst (update_order order_id new_items st)) = 200
     ∧ orders_storage (snd (update_order order_id new_items st)) !! order_id
       = Some (Order.set_items (List.map VStr new_items) order))
  ∧ (∀ (b : OrderCreate.body) (now : datetime) (st : state),
       2 ≤ len (strip (OrderCreate.body_customer_name b)) →
       (Forall (fun v => is_Some (ShawarmaType_.of_value v))
          (OrderCreate.body_items b) →
        ∃ d st' ts,
          post_orders b now st = (Ok d, st')
          ∧ List.map ShawarmaType_.value ts = OrderCreate.body_items b
          ∧ Order.items (OrderResponse.order d) = List.map VEnum ts)
       ∧ (Exists (fun v => ShawarmaType_.of_value v = None)
            (OrderCreate.body_items b) →
          (∃ errs,
             post_orders b now st = (Raise (RequestValidationError errs), st))
          ∧ http_status (fst (post_orders b now st)) = 422)).
Proof.
  split.
  - intros st order_id order new_items H Hs.
    rewrite (update_order_in_progress _ _ _ _ H Hs). simpl.
    split; [reflexivity | apply lookup_insert_eq].
  - intros b now st Hn. split.
    + intros Hall. destruct (validate_known_items b Hn Hall) as (ts & Hm & E).
      unfold post_orders. rewrite E. unfold create_order. simpl.
      eexists _, _, ts. split; [reflexivity|]. split; [exact Hm | reflexivity].
    + intros Hex. destruct (validate_unknown_item b Hex) as [errs E].
      unfold post_orders. rewrite E. simpl. split; [eauto | reflexivity].
Qed.

Lemma items_checked_on_create_not_on_update_witness :
  orders_storage
    (snd (update_order 7 [utf8 "pizza"] (sample_store IN_PROGRESS))) !! 7
  = Some (Order.set_items [VStr (utf8 "pizza")] (sample_order IN_PROGRESS))
  ∧ (∃ d st' ts,
       post_orders an_body 0 initial = (Ok d, st')
       ∧ List.map ShawarmaType_.value ts = OrderCreate.body_items an_body
       ∧ Order.items (OrderResponse.order d) = List.map VEnum ts)
  ∧ http_status (fst (post_orders pizza_body 0 initial)) = 422.
Proof.
  split; [|split].
  - apply (proj1 items_checked_on_create_not_on_update
             (sample_store IN_PROGRESS) 7 (sample_order IN_PROGRESS)
             [utf8 "pizza"]); reflexivity.
  - apply (proj2 items_checked_on_create_not_on_update an_body 0 initial).
    + vm_compute. discriminate.
    + repeat constructor. vm_compute. eauto.
  - apply (proj2 items_checked_on_create_not_on_update pizza_body 0 initial).
    + vm_compute. discriminate.
    + constructor. vm_compute. reflexivity.
Defined.

(** C5 as it was stated does not hold for creation: the name is valid,
    [pizza] is no menu identifier, and the order is not created. *)
Lemma create_rejects_unknown_item :
  2 ≤ len (strip (OrderCreate.body_customer_name pizza_body))
  ∧ dict_contains (VStr (utf8 "pizza")) menu_items = false
  ∧ ShawarmaType_.of_value (utf8 "pizza") = None
  ∧ post_orders pizza_body 0 initial =
      (Raise (RequestValidationError
                [enum_error (utf8 "items") 0 (VStr (utf8 "pizza"))]),
       initial)
  ∧ http_status (fst (post_orders pizza_body 0 initial)) = 422
  ∧ ¬ ∃ d st', post_orders pizza_body 0 initial = (Ok d, st').
Proof.
  split; [vm_compute; discriminate|].
  split; [reflexivity|]. split; [reflexivity|].
  assert (post_orders pizza_body 0 initial =
            (Raise (RequestValidationError
                      [enum_error (utf8 "items") 0 (VStr (utf8 "pizza"))]),
             initial)) as E by (vm_compute; reflexivity).
  split; [exact E|]. split; [rewrite E; reflexivity|].
  intros (d & st' & H). rewrite E in H. discriminate.
Qed.

(** ** The id counter and the reachable stores *)

Section Counter.

(** A request either leaves the counter alone and creates nothing, or
    creates the order numbered by the counter and advances it by one. *)
Lemma handle_counter (r : request) (st : state) :
  (created_id (fst (handle r st)) = None
   ∧ next_order_id (snd (handle r st)) = next_order_id st)
  ∨ (created_id (fst (handle r st)) = Some (next_order_id st)
     ∧ next_order_id (snd (handle r st)) = next_order_id st + 1).
Proof.
  destruct r as [| |n|b now|i|i l|i]; simpl; try (left; split; reflexivity).
  - destruct (post_orders b now st) as [[d|e] st'] eqn:E; simpl.
    + right. destruct (post_orders_ok_inv _ _ _ _ _ E) as (Hi & _ & _ & Hn).
      rewrite Hi, Hn. split; reflexivity.
    + left. rewrite (post_orders_raise_inv _ _ _ _ _ E). split; reflexivity.
  - left. destruct (get_order i st); split; reflexivity.
  - left. unfold update_order.
    destruct (orders_storage st !! i); [case_bool_decide|]; split; reflexivity.
  - left. unfold cancel_order.
    destruct (orders_storage st !! i); [case_bool_decide|]; split; reflexivity.
Qed.

Lemma run_cons (r : request) (rs : list request) (st : state) :
  run (r :: rs) st =
    (fst (handle r st) :: fst (run rs (snd (handle r st))),
     snd (run rs (snd (handle r st)))).
Proof.
  simpl. destruct (handle r st) as [o st1]. simpl.
  destruct (run rs st1) as [os st2]. reflexivity.
Qed.

(** The ids created by a run are the next values of the counter, in
    order, and the counter ends that many further. *)
Lemma created_ids_cons (o : result response) (os : list (result response)) :
  created_ids (o :: os) =
    match created_id o with
    | Some i => i :: created_ids os
    | None => created_ids os
    end.
Proof. reflexivity. Qed.

Lemma run_created_ids (rs : list request) (st : state) :
  created_ids (fst (run rs st)) =
    seqZ (next_order_id st) (Z.of_nat (length (created_ids (fst (run rs st)))))
  ∧ next_order_id (snd (run rs st)) =
      next_order_id st + Z.of_nat (length (created_ids (fst (run rs st)))).
Proof.
  revert st. induction rs as [|r rs IH]; intros st.
  - simpl. split; [reflexivity | lia].
  - rewrite run_cons. cbn [fst snd]. rewrite created_ids_cons.
    destruct (IH (snd (handle r st))) as [IH1 IH2].
    destruct (handle_counter r st) as [[Hc Hn]|[Hc Hn]];
      rewrite Hc; rewrite Hn in IH1, IH2.
    + split; [exact IH1 | exact IH2].
    + cbn [length]. split.
      * rewrite (seqZ_cons (next_order_id st)) by lia.
        f_equal. rewrite IH1 at 1. f_equal; lia.
      * rewrite IH2. lia.
Qed.

Lemma StronglySorted_seqZ (m n : Z) : StronglySorted Z.lt (seqZ m n).
Proof.
  remember (Z.to_nat n) as k eqn:Hk. revert m n Hk.
  induction k as [|k IH]; intros m n Hk.
  - rewrite seqZ_nil by lia. constructor.
  - rewrite seqZ_cons by lia. constructor.
    + apply IH. lia.
    + apply Forall_seqZ. intros; lia.
Qed.

(** Every order of a reachable store carries the creation label. *)
Lemma reachable_in_progress (st : state) :
  reachable st →
  ∀ i o, orders_storage st !! i = Some o → Order.status o = IN_PROGRESS.
Proof.
  induction 1 as [|r st _ IH]; intros i o.
  - simpl. rewrite lookup_empty. discriminate.
  - destruct r as [| |n|b now|j|j l|j]; simpl; try apply IH.
    + destruct (post_orders b now st) as [[d|e] st'] eqn:E; simpl.
      * destruct (post_orders_ok_inv _ _ _ _ _ E) as (_ & Hs & -> & _).
        rewrite lookup_insert. case_decide.
        -- intros [= <-]. exact Hs.
        -- apply IH.
      * rewrite (post_orders_raise_inv _ _ _ _ _ E). apply IH.
    + unfold update_order. destruct (orders_storage st !! j) as [oj|] eqn:Ej;
        [case_bool_decide|]; simpl; try apply IH.
      rewrite lookup_insert. case_decide; [|apply IH].
      intros [= <-]. simpl. exact (IH _ _ Ej).
    + unfold cancel_order. destruct (orders_storage st !! j) as [oj|] eqn:Ej;
        [case_bool_decide|]; simpl; try apply IH.
      rewrite lookup_delete. case_decide; [discriminate | apply IH].
Qed.

(** An order with the status [պատրաստ] and an id below the counter is
    still there, as it was, after any request: nothing cancels it,
    changes it or overwrites it. *)
Lemma ready_order_stays (r : request) (st : state) (i : Z) (o : Order.t) :
  orders_storage st !! i = Some o →
  Order.status o = READY →
  i < next_order_id st →
  orders_storage (snd (handle r st)) !! i = Some o
  ∧ i < next_order_id (snd (handle r st)).
Proof.
  intros H Hs Hlt. split.
  - destruct r as [| |n|b now|j|j l|j]; simpl; try exact H.
    + destruct (post_orders b now st) as [[d|e] st'] eqn:E; simpl.
      * destruct (post_orders_ok_inv _ _ _ _ _ E) as (_ & _ & -> & _).
        rewrite lookup_insert_ne by lia. exact H.
      * rewrite (post_orders_raise_inv _ _ _ _ _ E). exact H.
    + destruct (decide (j = i)) as [->|Hne].
      * rewrite (update_order_wrong_status st i o l H); [exact H|].
        rewrite Hs. exact READY_not_IN_PROGRESS.
      * unfold update_order.
        destruct (orders_storage st !! j); [case_bool_decide|]; simpl;
          try exact H.
        rewrite lookup_insert_ne by exact Hne. exact H.
    + unfold cancel_order. destruct (decide (j = i)) as [->|Hne].
      * rewrite H. rewrite bool_decide_eq_true_2 by exact Hs. exact H.
      * destruct (orders_storage st !! j); [case_bool_decide|]; simpl;
          try exact H.
        rewrite lookup_delete_ne by exact Hne. exact H.
  - destruct (handle_counter r st) as [[_ ->]|[_ ->]]; lia.
Qed.

Lemma ready_order_stays_run (rs : list request) (st : state) (i : Z)
    (o : Order.t) :
  orders_storage st !! i = Some o →
  Order.status o = READY →
  i < next_order_id st →
  orders_storage (snd (run rs st)) !! i = Some o.
Proof.
  revert st. induction rs as [|r rs IH]; intros st H Hs Hlt; [exact H|].
  rewrite run_cons. cbn [snd].
  destruct (ready_order_stays r st i o H Hs Hlt) as [H' Hlt'].
  exact (IH _ H' Hs Hlt').
Qed.

End Counter.

(** Two orders, the first cancelled, a rejected body, a third order. *)
Example sample_trace_ids :
  created_ids (fst (run sample_trace initial)) = [1; 2; 3]
  ∧ dom (orders_storage (snd (run sample_trace initial))) = {[2; 3]}
  ∧ next_order_id (snd (run sample_trace initial)) = 4.
Proof. vm_compute. repeat split. Qed.

(** C6: along any sequence of requests served from the initial store,
    cancellations included, the ids of the created orders are 1, 2, 3, ...
    in the order of creation: each is greater than all before it and none
    occurs twice; the counter ends one past the last id; no request lowers
    the counter and [cancel_order] leaves it as it is. *)
Theorem order_ids_sequential (rs : list request) :
  created_ids (fst (run rs initial)) =
    seqZ 1 (Z.of_nat (length (created_ids (fst (run rs initial)))))
  ∧ StronglySorted Z.lt (created_ids (fst (run rs initial)))
  ∧ NoDup (created_ids (fst (run rs initial)))
  ∧ next_order_id (snd (run rs initial)) =
      1 + Z.of_nat (length (created_ids (fst (run rs initial))))
  ∧ (∀ (r : request) (st : state),
       next_order_id st ≤ next_order_id (snd (handle r st)))
  ∧ (∀ (order_id : Z) (st : state),
       next_order_id (snd (cancel_order order_id st)) = next_order_id st).
Proof.
  destruct (run_created_ids rs initial) as [H1 H2]. simpl in H1, H2.
  split; [exact H1|].
  split; [rewrite H1; apply StronglySorted_seqZ|].
  split; [rewrite H1; apply NoDup_seqZ|].
  split; [exact H2|]. split.
  - intros r st. destruct (handle_counter r st) as [[_ ->]|[_ ->]]; lia.
  - intros order_id st. unfold cancel_order.
    destruct (orders_storage st !! order_id); [case_bool_decide|]; reflexivity.
Qed.

(** C10: in every store the application can reach, each order has the
    status [Ընթացքում ա]; hence neither [update_order] nor [cancel_order]
    can answer with its 422 there. *)
Theorem reachable_orders_in_progress (st : state) :
  reachable st →
  (∀ (order_id : Z) (order : Order.t),
     orders_storage st !! order_id = Some order →
     Order.status order = IN_PROGRESS)
  ∧ (∀ (order_id : Z) (new_items : list pystr) (detail : pystr),
       fst (update_order order_id new_items st)
       ≠ Raise (HTTPException 422 detail))
  ∧ (∀ (order_id : Z) (detail : pystr),
       fst (cancel_order order_id st) ≠ Raise (HTTPException 422 detail)).
Proof.
  intros Hr. pose proof (reachable_in_progress st Hr) as Hinv.
  split; [exact Hinv|]. split.
  - intros order_id new_items detail. unfold update_order.
    destruct (orders_storage st !! order_id) as [o|] eqn:E.
    + rewrite bool_decide_eq_false_2; [simpl; discriminate|].
      intros Hne. apply Hne. exact (Hinv _ _ E).
    + simpl. unfold not_found. discriminate.
  - intros order_id detail. unfold cancel_order.
    destruct (orders_storage st !! order_id) as [o|] eqn:E.
    + rewrite bool_decide_eq_false_2; [simpl; discriminate|].
      fold READY. rewrite (Hinv _ _ E). intros Heq.
      exact (READY_not_IN_PROGRESS (eq_sym Heq)).
    + simpl. unfold not_found. discriminate.
Qed.

Lemma reachable_orders_in_progress_witness :
  (∀ (order_id : Z) (order : Order.t),
     orders_storage (snd (run sample_trace initial)) !! order_id = Some order →
     Order.status order = IN_PROGRESS)
  ∧ (∀ (order_id : Z) (new_items : list pystr) (detail : pystr),
       fst (update_order order_id new_items (snd (run sample_trace initial)))
       ≠ Raise (HTTPException 422 detail))
  ∧ (∀ (order_id : Z) (detail : pystr),
       fst (cancel_order order_id (snd (run sample_trace initial)))
       ≠ Raise (HTTPException 422 detail)).
Proof.
  apply (reachable_orders_in_progress (snd (run sample_trace initial))).
  unfold sample_trace. rewrite !run_cons. cbn [run snd].
  repeat apply reachable_handle. apply reachable_initial.
Defined.

(** * Further properties of the handlers *)

(** ** [strip] and the name validator *)

Section Strip.

Arguments isspace : simpl never.

Lemma lstrip_split (s : pystr) :
  ∃ ws, s = ws ++ lstrip s ∧ Forall blank ws.
Proof.
  induction s as [|c s (ws & E & Hws)].
  - exists []. split; [reflexivity | constructor].
  - simpl. destruct (isspace c) eqn:Ec.
    + exists (c :: ws). split; [simpl; f_equal; exact E|].
      constructor; [exact Ec | exact Hws].
    + exists []. split; [reflexivity | constructor].
Qed.

Lemma lstrip_head (s : pystr) (c : N) :
  head (lstrip s) = Some c → isspace c = false.
Proof.
  induction s as [|a s IH]; [discriminate|].
  simpl. destruct (isspace a) eqn:Ea; [exact IH|].
  simpl. intros [= <-]. exact Ea.
Qed.

Lemma lstrip_fixed (s : pystr) :
  (∀ c, head s = Some c → isspace c = false) → lstrip s = s.
Proof.
  destruct s as [|a s]; [reflexivity|]. intros H. simpl.
  rewrite (H a eq_refl). reflexivity.
Qed.

Lemma lstrip_blank (s : pystr) : Forall blank s → lstrip s = [].
Proof.
  induction 1 as [|c s Hc _ IH]; [reflexivity|].
  simpl. rewrite Hc. exact IH.
Qed.

Lemma last_rev (s : pystr) : last (rev s) = head s.
Proof. destruct s as [|a s]; [reflexivity|]. simpl. apply last_snoc. Qed.

Lemma head_rev (s : pystr) : head (rev s) = last s.
Proof. rewrite <- (rev_involutive s) at 2. symmetry. apply last_rev. Qed.

Lemma rstrip_split (s : pystr) :
  ∃ ws, s = rstrip s ++ ws ∧ Forall blank ws.
Proof.
  destruct (lstrip_split (rev s)) as (ws & E & Hws).
  exists (rev ws). split.
  - unfold rstrip. rewrite <- rev_app_distr, <- E, rev_involutive. reflexivity.
  - apply Forall_forall. intros c Hc. rewrite Forall_forall in Hws.
    apply Hws. apply list_elem_of_In. apply in_rev.
    apply list_elem_of_In. exact Hc.
Qed.

Lemma rstrip_last (s : pystr) (c : N) :
  last (rstrip s) = Some c → isspace c = false.
Proof. unfold rstrip. rewrite last_rev. apply lstrip_head. Qed.

Lemma rstrip_fixed (s : pystr) :
  (∀ c, last s = Some c → isspace c = false) → rstrip s = s.
Proof.
  intros H. unfold rstrip. rewrite lstrip_fixed; [apply rev_involutive|].
  intros c. rewrite head_rev. apply H.
Qed.

Lemma strip_head (v : pystr) (c : N) :
  head (strip v) = Some c → isspace c = false.
Proof.
  unfold strip. destruct (rstrip_split (lstrip v)) as (ws & E & _).
  intros H. apply (lstrip_head v). rewrite E.
  destruct (rstrip (lstrip v)); [discriminate | exact H].
Qed.

Lemma strip_last (v : pystr) (c : N) :
  last (strip v) = Some c → isspace c = false.
Proof. unfold strip. apply rstrip_last. Qed.

Lemma strip_split (v : pystr) :
  ∃ ws1 ws2, v = ws1 ++ strip v ++ ws2 ∧ Forall blank ws1 ∧ Forall blank ws2.
Proof.
  destruct (lstrip_split v) as (ws1 & E1 & H1).
  destruct (rstrip_split (lstrip v)) as (ws2 & E2 & H2).
  exists ws1, ws2. unfold strip. rewrite <- E2, <- E1. auto.
Qed.

Lemma strip_fixed (s : pystr) :
  (∀ c, head s = Some c → isspace c = false) →
  (∀ c, last s = Some c → isspace c = false) →
  strip s = s.
Proof.
  intros Hh Hl. unfold strip. rewrite (lstrip_fixed s Hh).
  apply rstrip_fixed. exact Hl.
Qed.

Lemma len_strip_le (v : pystr) : len (strip v) ≤ len v.
Proof.
  destruct (strip_split v) as (ws1 & ws2 & E & _).
  unfold len. rewrite E at 2. rewrite !length_app. lia.
Qed.

End Strip.

(** X1: [strip] is idempotent, so a name the validator returned is
    accepted again and returned as it is. *)
Theorem validate_name_fixed_point (v n : pystr) :
  OrderCreate.validate_name v = Ok n →
  strip n = n ∧ OrderCreate.validate_name n = Ok n.
Proof.
  unfold OrderCreate.validate_name.
  destruct (Z.ltb_spec (len (strip v)) 2) as [|Hlen]; [discriminate|].
  intros [= <-].
  assert (strip (strip v) = strip v) as E
    by (apply strip_fixed; [apply strip_head | apply strip_last]).
  rewrite E. split; [reflexivity|].
  destruct (Z.ltb_spec (len (strip v)) 2); [lia | reflexivity].
Qed.

Lemma validate_name_fixed_point_witness :
  strip (utf8 "An") = utf8 "An"
  ∧ OrderCreate.validate_name (utf8 "An") = Ok (utf8 "An").
Proof.
  apply (validate_name_fixed_point (utf8 " An ") (utf8 "An")).
  vm_compute. reflexivity.
Defined.

(** X2: the name the validator returns is the input without the white
    space around it: the input is white space, the name, white space; the
    name has at least 2 code points and neither starts nor ends with white
    space (white space inside the name is kept). *)
Theorem validate_name_shape (v n : pystr) :
  OrderCreate.validate_name v = Ok n →
  (∃ ws1 ws2, v = ws1 ++ n ++ ws2 ∧ Forall blank ws1 ∧ Forall blank ws2)
  ∧ 2 ≤ len n
  ∧ (∀ c, head n = Some c → isspace c = false)
  ∧ (∀ c, last n = Some c → isspace c = false).
Proof.
  unfold OrderCreate.validate_name.
  destruct (Z.ltb_spec (len (strip v)) 2) as [|Hlen]; [discriminate|].
  intros [= <-]. split; [apply strip_split|]. split; [exact Hlen|].
  split; [apply strip_head | apply strip_last].
Qed.

Lemma validate_name_shape_witness :
  (∃ ws1 ws2, utf8 "  A n " = ws1 ++ utf8 "A n" ++ ws2
              ∧ Forall blank ws1 ∧ Forall blank ws2)
  ∧ 2 ≤ len (utf8 "A n")
  ∧ (∀ c, head (utf8 "A n") = Some c → isspace c = false)
  ∧ (∀ c, last (utf8 "A n") = Some c → isspace c = false).
Proof.
  apply (validate_name_shape (utf8 "  A n ") (utf8 "A n")).
  vm_compute. reflexivity.
Defined.

(** X3: a name made of white space only, however long, and a name of
    fewer than 2 code points are both refused with the [ValueError]. *)
Theorem validate_name_refuses (v : pystr) :
  Forall blank v ∨ len v < 2 →
  OrderCreate.validate_name v =
    Raise (ValueError (utf8 "Անունը պետք է լինի նվազագույնը 2 տառ")).
Proof.
  intros H. apply validate_name_short. destruct H as [H|H].
  - unfold strip. rewrite (lstrip_blank v H). vm_compute. reflexivity.
  - pose proof (len_strip_le v). lia.
Qed.

Lemma validate_name_refuses_witness :
  OrderCreate.validate_name [0x20; 0x09; 0xA0; 0x3000; 0x0A]%N =
    Raise (ValueError (utf8 "Անունը պետք է լինի նվազագույնը 2 տառ"))
  ∧ OrderCreate.validate_name (utf8 "A") =
      Raise (ValueError (utf8 "Անունը պետք է լինի նվազագույնը 2 տառ")).
Proof.
  split.
  - apply (validate_name_refuses [0x20; 0x09; 0xA0; 0x3000; 0x0A]%N).
    left. repeat constructor.
  - apply (validate_name_refuses (utf8 "A")). right. vm_compute. reflexivity.
Defined.

(** ** Answers and the store *)

Section Answers.

Lemma http_status_result_map {A B} (f : A → B) (r : result A) :
  http_status (result_map f r) = http_status r.
Proof. destruct r; reflexivity. Qed.

Lemma update_order_inv (i : Z) (l : list pystr) (st : state) :
  (∃ e, update_order i l st = (Raise e, st)
        ∧ (e = not_found i
           ∨ e = HTTPException 422 (utf8 "Պատրաստ պատվերը չի կարելի փոխել")))
  ∨ (∃ o, orders_storage st !! i = Some o
          ∧ Order.status o = IN_PROGRESS
          ∧ update_order i l st =
              (Ok {| OrderDict.status := utf8 "updated";
                     OrderDict.order := Order.set_items (List.map VStr l) o |},
               {| orders_storage :=
                    <[i := Order.set_items (List.map VStr l) o]>
                      (orders_storage st);
                  next_order_id := next_order_id st |})).
Proof.
  destruct (orders_storage st !! i) as [o|] eqn:E.
  - destruct (decide (Order.status o = IN_PROGRESS)) as [Hs|Hs].
    + right. exists o. split; [reflexivity|]. split; [exact Hs|].
      exact (update_order_in_progress st i o l E Hs).
    + left. eexists. split; [exact (update_order_wrong_status st i o l E Hs)|].
      right. reflexivity.
  - left. eexists. split; [exact (update_order_absent st i l E)|].
    left. reflexivity.
Qed.

Lemma cancel_order_inv (i : Z) (st : state) :
  (∃ e, cancel_order i st = (Raise e, st)
        ∧ (e = not_found i
           ∨ e = HTTPException 422 (utf8 "Պատրաստ պատվերը չի կարելի չեղարկել")))
  ∨ (∃ o d, orders_storage st !! i = Some o
            ∧ cancel_order i st =
                (Ok d, {| orders_storage := delete i (orders_storage st);
                          next_order_id := next_order_id st |})).
Proof.
  unfold cancel_order. destruct (orders_storage st !! i) as [o|] eqn:E.
  - case_bool_decide.
    + left. eexists. split; [reflexivity|]. right. reflexivity.
    + right. eexists _, _. split; reflexivity.
  - left. eexists. split; [reflexivity|]. left. reflexivity.
Qed.

Lemma post_orders_inv (b : OrderCreate.body) (now : datetime) (st : state) :
  (∃ errs, post_orders b now st = (Raise (RequestValidationError errs), st))
  ∨ (∃ d, post_orders b now st =
            (Ok d, {| orders_storage :=
                        <[next_order_id st := OrderResponse.order d]>
                          (orders_storage st);
                      next_order_id := next_order_id st + 1 |})
          ∧ Order.id (OrderResponse.order d) = next_order_id st
          ∧ Order.status (OrderResponse.order d) = IN_PROGRESS
          ∧ OrderCreate.validate_name (OrderCreate.body_customer_name b)
            = Ok (Order.customer_name (OrderResponse.order d))).
Proof.
  unfold post_orders, OrderCreate.validate.
  destruct (OrderCreate.validate_items 0 (OrderCreate.body_items b))
    as [ts errs].
  destruct (OrderCreate.validate_name (OrderCreate.body_customer_name b))
    as [n|e] eqn:En.
  - destruct errs as [|er errs].
    + right. cbn [app]. unfold create_order.
      cbn [OrderCreate.customer_name OrderCreate.items orders_storage
           next_order_id].
      match goal with |- context [Ok ?x] => exists x end.
      repeat split.
    + left. eexists. reflexivity.
  - left. eexists. reflexivity.
Qed.

End Answers.

(** X4: a request that is answered with an error leaves the store and
    the counter exactly as they were, whichever handler it went to. *)
Theorem error_leaves_state (r : request) (st : state) (e : exn) :
  fst (handle r st) = Raise e → snd (handle r st) = st.
Proof.
  destruct r as [| |n|b now|i|i l|i]; simpl; try reflexivity.
  - destruct (post_orders_inv b now st) as [[errs E]|(d & E & _)];
      rewrite E; [reflexivity | discriminate].
  - destruct (update_order_inv i l st) as [(e' & E & _)|(o & _ & _ & E)];
      rewrite E; [reflexivity | discriminate].
  - destruct (cancel_order_inv i st) as [(e' & E & _)|(o & d & _ & E)];
      rewrite E; [reflexivity | discriminate].
Qed.

Lemma error_leaves_state_witness :
  snd (handle (PUT_order 7 [utf8 "հատուկ"]) (sample_store READY))
  = sample_store READY.
Proof.
  apply (error_leaves_state (PUT_order 7 [utf8 "հատուկ"]) (sample_store READY)
           (HTTPException 422 (utf8 "Պատրաստ պատվերը չի կարելի փոխել"))).
  vm_compute. reflexivity.
Defined.

(** X5: every request is answered with 200, 404 or 422; the [KeyError] of
    the dict accesses never escapes a handler.  [GET /ping] and
    [GET /menu] always answer 200, and an order request answers 404
    exactly when no order is stored under the id. *)
Theorem answer_statuses (r : request) (st : state) :
  (http_status (fst (handle r st)) = 200
   ∨ http_status (fst (handle r st)) = 404
   ∨ http_status (fst (handle r st)) = 422)
  ∧ http_status (fst (handle GET_ping st)) = 200
  ∧ http_status (fst (handle GET_menu st)) = 200
  ∧ ∀ i l,
      (http_status (fst (handle (GET_order i) st)) = 404
       ↔ orders_storage st !! i = None)
      ∧ (http_status (fst (handle (PUT_order i l) st)) = 404
         ↔ orders_storage st !! i = None)
      ∧ (http_status (fst (handle (DELETE_order i) st)) = 404
         ↔ orders_storage st !! i = None).
Proof.
  split; [|split; [reflexivity|split; [reflexivity|]]].
  - destruct r as [| |n|b now|i|i l|i]; simpl; auto.
    + destruct (post_orders_inv b now st) as [[errs E]|(d & E & _)];
        rewrite E; simpl; auto.
    + unfold get_order. destruct (orders_storage st !! i); simpl; auto.
    + destruct (update_order_inv i l st)
        as [(e' & E & [->| ->])|(o & _ & _ & E)]; rewrite E; simpl; auto.
    + destruct (cancel_order_inv i st)
        as [(e' & E & [->| ->])|(o & d & _ & E)]; rewrite E; simpl; auto.
  - intros i l. simpl. unfold get_order, update_order, cancel_order.
    destruct (orders_storage st !! i) as [o|]; simpl.
    + repeat split; try discriminate; repeat case_bool_decide; simpl;
        discriminate.
    + repeat split; reflexivity.
Qed.

(** ** What the store holds *)

Section Store.

(** Where an order found in the store after a request comes from: it was
    there before, or it is the order that was there with new items, or it
    is the order just created under the old value of the counter. *)
Lemma handle_lookup (r : request) (st : state) (i : Z) (o' : Order.t) :
  orders_storage (snd (handle r st)) !! i = Some o' →
  orders_storage st !! i = Some o'
  ∨ (∃ o l, orders_storage st !! i = Some o
            ∧ Order.status o = IN_PROGRESS
            ∧ o' = Order.set_items (List.map VStr l) o)
  ∨ (∃ b, i = next_order_id st
          ∧ Order.id o' = next_order_id st
          ∧ Order.status o' = IN_PROGRESS
          ∧ OrderCreate.validate_name (OrderCreate.body_customer_name b)
            = Ok (Order.customer_name o')).
Proof.
  destruct r as [| |n|b now|j|j l|j]; simpl; auto.
  - destruct (post_orders_inv b now st) as [[errs E]|(d & E & Hi & Hs & Hn)];
      rewrite E; simpl; auto.
    rewrite lookup_insert. case_decide; auto.
    intros [= <-]. right; right. exists b. auto.
  - destruct (update_order_inv j l st) as [(e' & E & _)|(o & Ho & Hs & E)];
      rewrite E; simpl; auto.
    rewrite lookup_insert. case_decide; auto.
    intros [= <-]. subst j. right; left. exists o, l. auto.
  - destruct (cancel_order_inv j st) as [(e' & E & _)|(o & d & _ & E)];
      rewrite E; simpl; auto.
    rewrite lookup_delete. case_decide; [discriminate | auto].
Qed.

Lemma handle_counter_le (r : request) (st : state) :
  next_order_id st ≤ next_order_id (snd (handle r st)).
Proof. destruct (handle_counter r st) as [[_ ->]|[_ ->]]; lia. Qed.

(** The keys of the store stay below the counter. *)
Lemma handle_keys_below (r : request) (st : state) :
  (∀ i, is_Some (orders_storage st !! i) → i < next_order_id st) →
  ∀ i, is_Some (orders_storage (snd (handle r st)) !! i) →
       i < next_order_id (snd (handle r st)).
Proof.
  intros H i [o' Ho'].
  destruct (handle_lookup r st i o' Ho')
    as [Hi|[(o & l & Hi & _)|(b & -> & _)]].
  - pose proof (H i (mk_is_Some _ _ Hi)). pose proof (handle_counter_le r st).
    lia.
  - pose proof (H i (mk_is_Some _ _ Hi)). pose proof (handle_counter_le r st).
    lia.
  - destruct (handle_counter r st) as [[_ Hn]|[_ Hn]]; [|lia].
    (* the counter did not move: the key was there before *)
    destruct r as [| |n|b' now|j|j l|j]; simpl in *;
      try (apply H; eauto; fail).
    + destruct (post_orders_inv b' now st) as [[errs E]|(d & E & _)];
        rewrite E in *; simpl in *; [apply H; eauto | lia].
    + destruct (update_order_inv j l st) as [(e' & E & _)|(o & Ho & _ & E)];
        rewrite E in *; simpl in *; [apply H; eauto|].
      rewrite lookup_insert in Ho'. case_decide; [subst|]; apply H; eauto.
    + destruct (cancel_order_inv j st) as [(e' & E & _)|(o & d & _ & E)];
        rewrite E in *; simpl in *; [apply H; eauto|].
      rewrite lookup_delete in Ho'. case_decide; [discriminate|].
      apply H; eauto.
Qed.

Lemma reachable_keys_below (st : state) :
  reachable st →
  ∀ i, is_Some (orders_storage st !! i) → i < next_order_id st.
Proof.
  induction 1 as [|r st _ IH].
  - intros i [o Ho]. simpl in Ho. rewrite lookup_empty in Ho. discriminate.
  - apply handle_keys_below. exact IH.
Qed.

Lemma reachable_counter_pos (st : state) : reachable st → 1 ≤ next_order_id st.
Proof.
  induction 1 as [|r st _ IH]; [simpl; lia|].
  pose proof (handle_counter_le r st). lia.
Qed.

(** An id that is free and below the counter stays free. *)
Lemma handle_free_stays (r : request) (st : state) (i : Z) :
  orders_storage st !! i = None → i < next_order_id st →
  orders_storage (snd (handle r st)) !! i = None
  ∧ i < next_order_id (snd (handle r st)).
Proof.
  intros Hi Hlt. split; [|pose proof (handle_counter_le r st); lia].
  destruct (orders_storage (snd (handle r st)) !! i) as [o'|] eqn:Ho';
    [|reflexivity].
  destruct (handle_lookup r st i o' Ho')
    as [H|[(o & l & H & _)|(b & -> & _)]]; [congruence | congruence | lia].
Qed.

Lemma run_free_stays (rs : list request) (st : state) (i : Z) :
  orders_storage st !! i = None → i < next_order_id st →
  orders_storage (snd (run rs st)) !! i = None.
Proof.
  revert st. induction rs as [|r rs IH]; intros st Hi Hlt; [exact Hi|].
  rewrite run_cons. cbn [snd].
  destruct (handle_free_stays r st i Hi Hlt) as [Hi' Hlt'].
  exact (IH _ Hi' Hlt').
Qed.

Lemma validate_name_ok_inv (v n : pystr) :
  OrderCreate.validate_name v = Ok n → n = strip v ∧ 2 ≤ len (strip v).
Proof.
  unfold OrderCreate.validate_name.
  destruct (Z.ltb_spec (len (strip v)) 2) as [|Hlen]; [discriminate|].
  intros [= <-]. split; [reflexivity | exact Hlen].
Qed.

Lemma strip_strip (v : pystr) : strip (strip v) = strip v.
Proof. apply strip_fixed; [apply strip_head | apply strip_last]. Qed.

Lemma size_delete_present (m : gmap Z Order.t) (i : Z) (o : Order.t) :
  m !! i = Some o → size m = S (size (delete i m)).
Proof.
  intros H. rewrite <- (insert_id m i o H) at 1.
  rewrite <- insert_delete_eq.
  apply map_size_insert_None. apply lookup_delete_eq.
Qed.

(** One request: the orders gained and lost are the ones the answer
    reports. *)
Lemma handle_size (r : request) (st : state) :
  (∀ i, is_Some (orders_storage st !! i) → i < next_order_id st) →
  (size (orders_storage (snd (handle r st)))
   + (if is_cancelled (fst (handle r st)) then 1 else 0)
   = size (orders_storage st)
     + match created_id (fst (handle r st)) with Some _ => 1 | None => 0 end)%nat.
Proof.
  intros H. destruct r as [| |n|b now|j|j l|j]; simpl; try lia.
  - destruct (post_orders_inv b now st) as [[errs E]|(d & E & _)];
      rewrite E; simpl; [lia|].
    rewrite map_size_insert_None; [lia|].
    destruct (orders_storage st !! next_order_id st) eqn:Hl; [|reflexivity].
    pose proof (H _ (mk_is_Some _ _ Hl)). lia.
  - unfold get_order. destruct (orders_storage st !! j); simpl; lia.
  - destruct (update_order_inv j l st)
      as [(e' & E & _)|(o & Ho & _ & E)]; rewrite E; simpl; [lia|].
    rewrite map_size_insert_Some by eauto. lia.
  - destruct (cancel_order_inv j st)
      as [(e' & E & _)|(o & d & Ho & E)]; rewrite E; simpl; [lia|].
    rewrite (size_delete_present _ _ _ Ho). lia.
Qed.

Lemma run_size (rs : list request) (st : state) :
  (∀ i, is_Some (orders_storage st !! i) → i < next_order_id st) →
  (size (orders_storage (snd (run rs st))) + cancelled_count (fst (run rs st))
   = size (orders_storage st) + length (created_ids (fst (run rs st))))%nat.
Proof.
  revert st. induction rs as [|r rs IH]; intros st H.
  - simpl. unfold cancelled_count. simpl. lia.
  - rewrite run_cons. cbn [fst snd]. rewrite created_ids_cons.
    pose proof (handle_size r st H) as Hs.
    pose proof (IH _ (handle_keys_below r st H)) as Hr.
    unfold cancelled_count in *. cbn [List.filter].
    destruct (is_cancelled (fst (handle r st)));
      destruct (created_id (fst (handle r st))); cbn [length] in *; lia.
Qed.

End Store.

(** X6: in every store the application can reach the counter is at least
    1, every key lies between 1 and the counter (excluded), and the order
    stored under a key carries that key as its [id]. *)
Theorem reachable_keys_and_ids (st : state) :
  reachable st →
  1 ≤ next_order_id st
  ∧ ∀ (i : Z) (o : Order.t),
      orders_storage st !! i = Some o →
      1 ≤ i < next_order_id st ∧ Order.id o = i.
Proof.
  intros Hr. split; [exact (reachable_counter_pos st Hr)|].
  intros i o Ho. split.
  - split; [|exact (reachable_keys_below st Hr i (mk_is_Some _ _ Ho))].
    revert i o Ho. induction Hr as [|r st Hr IH]; intros i o Ho.
    + simpl in Ho. rewrite lookup_empty in Ho. discriminate.
    + destruct (handle_lookup r st i o Ho)
        as [H|[(o0 & l & H & _)|(b & -> & _)]]; eauto.
      exact (reachable_counter_pos st Hr).
  - revert i o Ho. induction Hr as [|r st Hr IH]; intros i o Ho.
    + simpl in Ho. rewrite lookup_empty in Ho. discriminate.
    + destruct (handle_lookup r st i o Ho)
        as [H|[(o0 & l & H & _ & ->)|(b & -> & Hi & _)]]; eauto.
      simpl. eauto.
Qed.

Lemma reachable_keys_and_ids_witness :
  1 ≤ next_order_id (snd (run sample_trace initial))
  ∧ ∀ (i : Z) (o : Order.t),
      orders_storage (snd (run sample_trace initial)) !! i = Some o →
      1 ≤ i < next_order_id (snd (run sample_trace initial)) ∧ Order.id o = i.
Proof.
  apply (reachable_keys_and_ids (snd (run sample_trace initial))).
  unfold sample_trace. rewrite !run_cons. cbn [run snd].
  repeat apply reachable_handle. apply reachable_initial.
Defined.

(** X7: in every store the application can reach, the [customer_name] of
    each order is a stripped name of at least 2 code points: it has no
    white space at either end, also after its items were replaced. *)
Theorem reachable_names_stripped (st : state) :
  reachable st →
  ∀ (i : Z) (o : Order.t),
    orders_storage st !! i = Some o →
    strip (Order.customer_name o) = Order.customer_name o
    ∧ 2 ≤ len (Order.customer_name o)
    ∧ (∀ c, head (Order.customer_name o) = Some c → isspace c = false)
    ∧ (∀ c, last (Order.customer_name o) = Some c → isspace c = false).
Proof.
  induction 1 as [|r st Hr IH]; intros i o Ho.
  - simpl in Ho. rewrite lookup_empty in Ho. discriminate.
  - destruct (handle_lookup r st i o Ho)
      as [H|[(o0 & l & H & _ & ->)|(b & _ & _ & _ & Hn)]].
    + exact (IH _ _ H).
    + simpl. exact (IH _ _ H).
    + apply validate_name_ok_inv in Hn as [-> Hlen].
      split; [apply strip_strip|]. split; [exact Hlen|].
      split; [apply strip_head | apply strip_last].
Qed.

Lemma reachable_names_stripped_witness :
  strip (utf8 "An") = utf8 "An"
  ∧ 2 ≤ len (utf8 "An")
  ∧ (∀ c, head (utf8 "An") = Some c → isspace c = false)
  ∧ (∀ c, last (utf8 "An") = Some c → isspace c = false).
Proof.
  apply (reachable_names_stripped (snd (run sample_trace initial)))
    with (i := 3)
         (o := {| Order.id := 3; Order.customer_name := utf8 "An";
              Order.items := [VEnum HAVOV]; Order.status := IN_PROGRESS;
              Order.created_at := 3 |}).
  - unfold sample_trace. rewrite !run_cons. cbn [run snd].
    repeat apply reachable_handle. apply reachable_initial.
  - vm_compute. reflexivity.
Defined.

(** X8: in a store the application can reach, creating an order never
    replaces one: the new id was free, every order that was stored is
    still stored unchanged, and the store holds exactly one order more. *)
Theorem create_is_fresh
    (b : OrderCreate.body) (now : datetime) (st st' : state)
    (d : OrderResponse.t) :
  reachable st →
  post_orders b now st = (Ok d, st') →
  orders_storage st !! Order.id (OrderResponse.order d) = None
  ∧ (∀ (j : Z) (o : Order.t),
       orders_storage st !! j = Some o → orders_storage st' !! j = Some o)
  ∧ size (orders_storage st') = S (size (orders_storage st)).
Proof.
  intros Hr H. destruct (post_orders_ok_inv _ _ _ _ _ H) as (-> & _ & -> & _).
  assert (orders_storage st !! next_order_id st = None) as Hfree.
  { destruct (orders_storage st !! next_order_id st) eqn:Hl; [|reflexivity].
    pose proof (reachable_keys_below st Hr _ (mk_is_Some _ _ Hl)). lia. }
  split; [exact Hfree|]. split.
  - intros j o Hj. rewrite lookup_insert_ne; [exact Hj | congruence].
  - apply map_size_insert_None. exact Hfree.
Qed.

Lemma create_is_fresh_witness :
  orders_storage (snd (post_orders an_body 0 initial)) !! 2 = None
  ∧ (∀ (j : Z) (o : Order.t),
       orders_storage (snd (post_orders an_body 0 initial)) !! j = Some o →
       orders_storage
         (snd (post_orders an_body 1 (snd (post_orders an_body 0 initial))))
         !! j = Some o)
  ∧ size (orders_storage
            (snd (post_orders an_body 1 (snd (post_orders an_body 0 initial)))))
    = S (size (orders_storage (snd (post_orders an_body 0 initial)))).
Proof.
  apply (create_is_fresh an_body 1 (snd (post_orders an_body 0 initial))
           (snd (post_orders an_body 1 (snd (post_orders an_body 0 initial))))
           {| OrderResponse.status := utf8 "Պատրաստ ա";
              OrderResponse.order :=
                {| Order.id := 2; Order.customer_name := utf8 "An";
                   Order.items := [VEnum HAVOV]; Order.status := IN_PROGRESS;
                   Order.created_at := 1 |};
              OrderResponse.message :=
                utf8 "Պատվեր #" ++ str_int 2 ++ utf8 " ստեղծվեց:" |}).
  - apply (reachable_handle (POST_orders an_body 0) initial).
    apply reachable_initial.
  - vm_compute. reflexivity.
Defined.

(** X9: once an order of a reachable store is cancelled its id is gone
    for good: whatever requests follow, no order is stored under it again
    and [get_order], [update_order] and [cancel_order] answer 404 for
    it. *)
Theorem cancelled_stays_gone
    (st st' : state) (i : Z) (d : MessageDict.t) (rs : list request) :
  reachable st →
  cancel_order i st = (Ok d, st') →
  orders_storage (snd (run rs st')) !! i = None
  ∧ get_order i (snd (run rs st')) = Raise (not_found i)
  ∧ (∀ l, fst (update_order i l (snd (run rs st'))) = Raise (not_found i))
  ∧ fst (cancel_order i (snd (run rs st'))) = Raise (not_found i).
Proof.
  intros Hr H. destruct (cancel_order_ok_inv _ _ _ _ H) as (o & Ho & _ & ->).
  assert (orders_storage (snd (run rs
            {| orders_storage := delete i (orders_storage st);
               next_order_id := next_order_id st |})) !! i = None) as Hgone.
  { apply run_free_stays; simpl.
    - apply lookup_delete_eq.
    - exact (reachable_keys_below st Hr i (mk_is_Some _ _ Ho)). }
  split; [exact Hgone|].
  unfold get_order, update_order, cancel_order. rewrite Hgone.
  repeat split.
Qed.

Lemma cancelled_stays_gone_witness :
  orders_storage (snd (run [POST_orders an_body 3; GET_order 1]
                         (snd (cancel_order 1 (snd (post_orders an_body 0 initial))))))
    !! 1 = None
  ∧ get_order 1 (snd (run [POST_orders an_body 3; GET_order 1]
                        (snd (cancel_order 1 (snd (post_orders an_body 0 initial))))))
    = Raise (not_found 1)
  ∧ (∀ l, fst (update_order 1 l
                 (snd (run [POST_orders an_body 3; GET_order 1]
                         (snd (cancel_order 1
                                 (snd (post_orders an_body 0 initial)))))))
          = Raise (not_found 1))
  ∧ fst (cancel_order 1
           (snd (run [POST_orders an_body 3; GET_order 1]
                   (snd (cancel_order 1 (snd (post_orders an_body 0 initial)))))))
    = Raise (not_found 1).
Proof.
  apply (cancelled_stays_gone (snd (post_orders an_body 0 initial)) _ 1
           {| MessageDict.status := utf8 "cancelled";
              MessageDict.message :=
                utf8 "Պատվեր #" ++ str_int 1 ++ utf8 " չեղարկվեց" |}).
  - apply (reachable_handle (POST_orders an_body 0) initial).
    apply reachable_initial.
  - vm_compute. reflexivity.
Defined.

(** X10: the orders in the store are the orders created minus the orders
    cancelled: after any sequence of requests from the initial store, the
    size of the store plus the number of cancellations answered equals
    the number of orders created. *)
Theorem store_size_accounts (rs : list request) :
  (size (orders_storage (snd (run rs initial)))
   + cancelled_count (fst (run rs initial))
   = length (created_ids (fst (run rs initial))))%nat.
Proof.
  rewrite (run_size rs initial); [simpl; rewrite map_size_empty; lia|].
  intros i [o Ho]. simpl in Ho. rewrite lookup_empty in Ho. discriminate.
Qed.

(** ** Updates *)

(** X11: replacing the items twice is replacing them once with the last
    list: on an order in progress, the answer and the state after
    [update_order] with [l1] and then with [l2] are those of
    [update_order] with [l2] alone. *)
Theorem update_last_wins
    (st : state) (i : Z) (o : Order.t) (l1 l2 : list pystr) :
  orders_storage st !! i = Some o →
  Order.status o = IN_PROGRESS →
  update_order i l2 (snd (update_order i l1 st)) = update_order i l2 st.
Proof.
  intros Ho Hs.
  rewrite (update_order_in_progress st i o l1 Ho Hs). cbn [snd].
  rewrite (update_order_in_progress st i o l2 Ho Hs).
  rewrite (update_order_in_progress _ i
             (Order.set_items (List.map VStr l1) o) l2).
  - cbn [orders_storage next_order_id]. rewrite insert_insert_eq. reflexivity.
  - cbn [orders_storage]. apply lookup_insert_eq.
  - exact Hs.
Qed.

Lemma update_last_wins_witness :
  update_order 7 [utf8 "հատուկ"]
    (snd (update_order 7 [utf8 "pizza"; utf8 "հավով"] (sample_store IN_PROGRESS)))
  = update_order 7 [utf8 "հատուկ"] (sample_store IN_PROGRESS).
Proof.
  apply (update_last_wins (sample_store IN_PROGRESS) 7
           (sample_order IN_PROGRESS)); reflexivity.
Defined.

(** X12: [update_order] neither adds nor removes an order and does not
    touch the counter, whether it succeeds or not; an order under another
    id is left as it is. *)
Theorem update_keeps_keys (st : state) (i : Z) (l : list pystr) :
  dom (orders_storage (snd (update_order i l st))) = dom (orders_storage st)
  ∧ next_order_id (snd (update_order i l st)) = next_order_id st
  ∧ ∀ j, j ≠ i →
         orders_storage (snd (update_order i l st)) !! j
         = orders_storage st !! j.
Proof.
  destruct (update_order_inv i l st) as [(e & E & _)|(o & Ho & _ & E)];
    rewrite E; cbn [snd orders_storage next_order_id].
  - repeat split.
  - split; [|split; [reflexivity|]].
    + apply dom_insert_lookup_L. eauto.
    + intros j Hj. apply lookup_insert_ne. congruence.
Qed.

(** X13: after a successful [update_order], [get_order] on the same id
    returns the order the update returned, with the new items. *)
Theorem update_then_get
    (st st' : state) (i : Z) (l : list pystr) (d : OrderDict.t) :
  update_order i l st = (Ok d, st') →
  get_order i st' =
    Ok {| OrderDict.status := utf8 "success";
          OrderDict.order := OrderDict.order d |}
  ∧ Order.items (OrderDict.order d) = List.map VStr l.
Proof.
  intros H.
  destruct (update_order_inv i l st) as [(e & E & _)|(o & Ho & _ & E)];
    rewrite E in H; [discriminate|].
  injection H as <- <-. unfold get_order. cbn [orders_storage].
  rewrite lookup_insert_eq. split; reflexivity.
Qed.

Lemma update_then_get_witness :
  get_order 7 (snd (update_order 7 [utf8 "pizza"] (sample_store IN_PROGRESS))) =
    Ok {| OrderDict.status := utf8 "success";
          OrderDict.order :=
            Order.set_items [VStr (utf8 "pizza")] (sample_order IN_PROGRESS) |}
  ∧ Order.items
      (Order.set_items [VStr (utf8 "pizza")] (sample_order IN_PROGRESS))
    = [VStr (utf8 "pizza")].
Proof.
  apply (update_then_get (sample_store IN_PROGRESS) _ 7 [utf8 "pizza"]
           {| OrderDict.status := utf8 "updated";
              OrderDict.order :=
                Order.set_items [VStr (utf8 "pizza")]
                  (sample_order IN_PROGRESS) |}).
  vm_compute. reflexivity.
Defined.

(** ** The menu *)

(** X14: a string is accepted as an item of [OrderCreate] exactly when it
    is the value of a member, and the member found is the one with that
    value: [ShawarmaType(v)] and [.value] are inverse to each other, and
    the four values are pairwise different. *)
Theorem enum_value_round_trip :
  (∀ (v : pystr) (t : ShawarmaType),
     ShawarmaType_.of_value v = Some t ↔ ShawarmaType_.value t = v)
  ∧ (∀ t1 t2 : ShawarmaType,
       ShawarmaType_.value t1 = ShawarmaType_.value t2 ↔ t1 = t2).
Proof.
  assert (∀ v t, ShawarmaType_.of_value v = Some t ↔ ShawarmaType_.value t = v)
    as H.
  { intros v t. split.
    - unfold ShawarmaType_.of_value. intros Hf.
      apply find_some in Hf as [_ Hf]. apply bool_decide_eq_true_1 in Hf.
      exact Hf.
    - intros <-. apply of_value_value. }
  split; [exact H|].
  intros t1 t2. split; [|intros ->; reflexivity].
  intros E. apply H in E. rewrite of_value_value in E. congruence.
Qed.

(** X15: whatever is asked for, the 404 of [GET /menu/{item_name}] starts
    with the name asked for and lists the value of each of the four
    members. *)
Theorem menu_item_404_lists_values (item_name : pystr) :
  ∃ detail,
    get_menu_item item_name = Raise (HTTPException 404 detail)
    ∧ (∃ rest, detail = item_name ++ rest)
    ∧ ∀ t : ShawarmaType,
        ∃ pre post, detail = pre ++ ShawarmaType_.value t ++ post.
Proof.
  eexists. split; [apply get_menu_item_not_found|].
  split; [eexists; reflexivity|].
  set (rest := utf8 " not found. Options are: "
               ++ repr_list (List.map repr_val (dict_keys menu_items))).
  assert (∀ k t,
            rest = take k rest ++ ShawarmaType_.value t
                   ++ drop (k + length (ShawarmaType_.value t)) rest →
            ∃ pre post,
              item_name ++ rest = pre ++ ShawarmaType_.value t ++ post) as H.
  { intros k t E. exists (item_name ++ take k rest),
      (drop (k + length (ShawarmaType_.value t)) rest).
    rewrite <- app_assoc. f_equal. exact E. }
  intros [].
  - apply (H 48%nat). vm_compute. reflexivity.
  - apply (H 81%nat). vm_compute. reflexivity.
  - apply (H 115%nat). vm_compute. reflexivity.
  - apply (H 153%nat). vm_compute. reflexivity.
Qed.

(** X16: [GET /menu] lists the members of [ShawarmaType] in their order,
    each once, and for each member the price, availability and
    preparation time of the entry of [menu_items] stored under it, whose
    [name] is that member. *)
Theorem get_menu_lists_menu_items :
  fst get_menu = utf8 "success"
  ∧ dict_keys (snd get_menu) = List.map VEnum ShawarmaType_.members
  ∧ NoDup (dict_keys (snd get_menu))
  ∧ ∀ t : ShawarmaType,
      ∃ item,
        dict_get (VEnum t) menu_items = Some item
        ∧ ShawarmaItem.name item = t
        ∧ dict_get (VEnum t) (snd get_menu)
          = Some (ShawarmaItem.price item, ShawarmaItem.available item,
                  ShawarmaItem.prep_time item).
Proof.
  split; [reflexivity|]. split; [reflexivity|]. split.
  - apply (bool_decide_unpack _). vm_compute. exact I.
  - intros []; eexists; (split; [reflexivity|]); split; reflexivity.
Qed.

(** ** The answer to a creation *)

(** X17: the answer to a successful [POST /orders] names the order it
    created: the message carries the id of the returned order (the
    counter was advanced before the message was built, and one is taken
    off again).  The [status] of the answer is the label [Պատրաստ ա],
    which is neither the status stored in the order nor the label
    [cancel_order] tests for. *)
Theorem create_answer
    (b : OrderCreate.body) (now : datetime) (st st' : state)
    (d : OrderResponse.t) :
  post_orders b now st = (Ok d, st') →
  OrderResponse.message d =
    utf8 "Պատվեր #" ++ str_int (Order.id (OrderResponse.order d))
    ++ utf8 " ստեղծվեց:"
  ∧ Order.created_at (OrderResponse.order d) = now
  ∧ OrderResponse.status d = utf8 "Պատրաստ ա"
  ∧ OrderResponse.status d ≠ Order.status (OrderResponse.order d)
  ∧ OrderResponse.status d ≠ READY.
Proof.
  unfold post_orders. destruct (OrderCreate.validate b); [|discriminate].
  unfold create_order. intros [= <- <-].
  cbn [OrderResponse.message OrderResponse.status OrderResponse.order
       Order.id Order.status Order.created_at next_order_id].
  rewrite Z.add_simpl_r. repeat split.
  - vm_compute. discriminate.
  - vm_compute. discriminate.
Qed.

Lemma create_answer_witness :
  OrderResponse.message
    {| OrderResponse.status := utf8 "Պատրաստ ա";
       OrderResponse.order :=
         {| Order.id := 1; Order.customer_name := utf8 "An";
            Order.items := [VEnum HAVOV]; Order.status := IN_PROGRESS;
            Order.created_at := 5 |};
       OrderResponse.message :=
         utf8 "Պատվեր #" ++ str_int 1 ++ utf8 " ստեղծվեց:" |}
  = utf8 "Պատվեր #" ++ str_int 1 ++ utf8 " ստեղծվեց:"
  ∧ 5 = 5
  ∧ utf8 "Պատրաստ ա" = utf8 "Պատրաստ ա"
  ∧ utf8 "Պատրաստ ա" ≠ IN_PROGRESS
  ∧ utf8 "Պատրաստ ա" ≠ READY.
Proof.
  apply (create_answer an_body 5 initial (snd (post_orders an_body 5 initial))
           {| OrderResponse.status := utf8 "Պատրաստ ա";
              OrderResponse.order :=
                {| Order.id := 1; Order.customer_name := utf8 "An";
                   Order.items := [VEnum HAVOV]; Order.status := IN_PROGRESS;
                   Order.created_at := 5 |};
              OrderResponse.message :=
                utf8 "Պատվեր #" ++ str_int 1 ++ utf8 " ստեղծվեց:" |}).
  vm_compute. reflexivity.
Defined.

(** X18: [special_requests] plays no part: two bodies that differ in that
    field only get the same answer and leave the same store. *)
Theorem special_requests_ignored
    (name : pystr) (items : list pystr) (s1 s2 : option (option pystr))
    (now : datetime) (st : state) :
  post_orders
    {| OrderCreate.body_customer_name := name;
       OrderCreate.body_items := items;
       OrderCreate.body_special_requests := s1 |} now st
  = post_orders
      {| OrderCreate.body_customer_name := name;
         OrderCreate.body_items := items;
         OrderCreate.body_special_requests := s2 |} now st.
Proof.
  unfold post_orders, OrderCreate.validate.
  cbn [OrderCreate.body_customer_name OrderCreate.body_items
       OrderCreate.body_special_requests].
  destruct (OrderCreate.validate_items 0 items) as [ts errs].
  destruct (OrderCreate.validate_name name) as [n|e]; [|reflexivity].
  cbn [app]. destruct errs; reflexivity.
Qed.

(** X19: in every store the application can reach, the items of an order
    are either all members of [ShawarmaType], as creation stored them, or
    all plain strings, as an update left them; the two are never mixed in
    one order. *)
Theorem reachable_items_uniform (st : state) :
  reachable st →
  ∀ (i : Z) (o : Order.t),
    orders_storage st !! i = Some o →
    (∃ ts : list ShawarmaType, Order.items o = List.map VEnum ts)
    ∨ (∃ l : list pystr, Order.items o = List.map VStr l).
Proof.
  induction 1 as [|r st Hr IH]; intros i o Ho.
  - simpl in Ho. rewrite lookup_empty in Ho. discriminate.
  - destruct r as [| |n|b now|j|j l|j]; simpl in Ho; try exact (IH _ _ Ho).
    + destruct (post_orders b now st) as [[d|e] st'] eqn:E; simpl in Ho.
      * pose proof E as E'. unfold post_orders in E'.
        destruct (OrderCreate.validate b) as [od|]; [|discriminate].
        unfold create_order in E'. injection E' as <- <-.
        cbn [orders_storage] in Ho. rewrite lookup_insert in Ho.
        case_decide; [|exact (IH _ _ Ho)].
        injection Ho as <-. left. eexists. reflexivity.
      * rewrite (post_orders_raise_inv _ _ _ _ _ E) in Ho. exact (IH _ _ Ho).
    + destruct (update_order_inv j l st) as [(e' & E & _)|(o0 & _ & _ & E)];
        rewrite E in Ho; cbn [snd orders_storage] in Ho;
        [exact (IH _ _ Ho)|].
      rewrite lookup_insert in Ho. case_decide; [|exact (IH _ _ Ho)].
      injection Ho as <-. right. eexists. reflexivity.
    + destruct (cancel_order_inv j st) as [(e' & E & _)|(o0 & d & _ & E)];
        rewrite E in Ho; cbn [snd orders_storage] in Ho;
        [exact (IH _ _ Ho)|].
      rewrite lookup_delete in Ho. case_decide; [discriminate|].
      exact (IH _ _ Ho).
Qed.

Lemma reachable_items_uniform_witness :
  (∃ ts : list ShawarmaType, [VEnum HAVOV] = List.map VEnum ts)
  ∨ (∃ l : list pystr, [VEnum HAVOV] = List.map VStr l).
Proof.
  apply (reachable_items_uniform (snd (run sample_trace initial)))
    with (i := 3)
         (o := {| Order.id := 3; Order.customer_name := utf8 "An";
              Order.items := [VEnum HAVOV]; Order.status := IN_PROGRESS;
              Order.created_at := 3 |}).
  - unfold sample_trace. rewrite !run_cons. cbn [run snd].
    repeat apply reachable_handle. apply reachable_initial.
  - vm_compute. reflexivity.
Defined.
